(** * Companies API: casing converter, allow-list filter, query builder
      and resource handlers

    Shallow embedding of [backend/app/apis/companies_api/__init__.py].

    Python values are a small tagged union, dictionaries are insertion
    ordered association lists (the order of the keys is the order of the
    columns in the generated SQL), exceptions and the shared store are
    threaded through a state-and-exception monad, and the two generator
    based context managers are written in continuation style: the body of
    the [with] block stands where the generator has its [yield].

    The [print] calls are left out, and so is [list_companies], which no
    property below is about. [uuid.uuid4()] and [datetime.now()] are
    arguments of the handlers that call them. *)

From Stdlib Require Import String Ascii List Bool ZArith NArith Lia DecimalString
  Permutation.
Import ListNotations.
Open Scope string_scope.

(** ** Python values *)

(** [uuid.UUID] by its 128-bit integer ([UUID.int]). *)
Definition uuid := N.

(** A naive [datetime.datetime] and a [datetime.date]. *)
Record datetime := mk_datetime {
  year : N; month : N; day : N;
  hour : N; minute : N; second : N; microsecond : N }.

Record date := mk_date { d_year : N; d_month : N; d_day : N }.

Inductive pyval :=
| PNone
| PStr (s : string)
| PInt (z : Z)
| PUuid (u : uuid)
| PDatetime (t : datetime)
| PDate (d : date).

Definition is_None (v : pyval) : bool :=
  match v with PNone => true | _ => false end.

(** *** Text forms: [str(uuid)], [isoformat()] *)

Definition digit_char (d : N) : ascii :=
  match String.get (N.to_nat d) "0123456789abcdef" with
  | Some c => c
  | None => "0"%char
  end.

(** The [k] lowest digits of [n] in base [base], most significant first,
    in front of [acc]. *)
Fixpoint digits (base : N) (k : nat) (n : N) (acc : string) : string :=
  match k with
  | O => acc
  | S k' => digits base k' (n / base) (String (digit_char (n mod base)) acc)
  end.

Definition hex (k : nat) (n : N) : string := digits 16 k n "".
Definition dec (k : nat) (n : N) : string := digits 10 k n "".

(** [str(u)] for a [uuid.UUID]: 32 lowercase hexadecimal digits grouped
    8-4-4-4-12. *)
Definition uuid_str (u : uuid) : string :=
  let h := hex 32 u in
  substring 0 8 h ++ "-" ++ substring 8 4 h ++ "-" ++ substring 12 4 h
    ++ "-" ++ substring 16 4 h ++ "-" ++ substring 20 12 h.

Definition date_isoformat (d : date) : string :=
  dec 4 (d_year d) ++ "-" ++ dec 2 (d_month d) ++ "-" ++ dec 2 (d_day d).

(** [datetime.isoformat(sep)]: the microseconds are printed only when
    they are not zero. *)
Definition datetime_format (sep : string) (t : datetime) : string :=
  dec 4 (year t) ++ "-" ++ dec 2 (month t) ++ "-" ++ dec 2 (day t) ++ sep
    ++ dec 2 (hour t) ++ ":" ++ dec 2 (minute t) ++ ":" ++ dec 2 (second t)
    ++ (if N.eqb (microsecond t) 0 then "" else "." ++ dec 6 (microsecond t)).

Definition datetime_isoformat : datetime -> string := datetime_format "T".

(** [str(v)]. *)
Definition py_str (v : pyval) : string :=
  match v with
  | PNone => "None"
  | PStr s => s
  | PInt z => NilZero.string_of_int (Z.to_int z)
  | PUuid u => uuid_str u
  | PDatetime t => datetime_format " " t
  | PDate d => date_isoformat d
  end.

(** ** Dictionaries

    A [dict] keeps its keys in insertion order; assigning to a key that is
    already bound replaces the value where the key stands, assigning to a
    new key appends it. *)

Definition dict := list (string * pyval).

Definition keys (d : dict) : list string := map fst d.
Definition values (d : dict) : list pyval := map snd d.

Fixpoint dict_get (k : string) (d : dict) : option pyval :=
  match d with
  | [] => None
  | (k', v) :: d' => if String.eqb k k' then Some v else dict_get k d'
  end.

Definition dict_mem (k : string) (d : dict) : bool :=
  match dict_get k d with Some _ => true | None => false end.

(** [d[k] = v] *)
Fixpoint dict_set (k : string) (v : pyval) (d : dict) : dict :=
  match d with
  | [] => [(k, v)]
  | (k', v') :: d' =>
      if String.eqb k k' then (k, v) :: d' else (k', v') :: dict_set k v d'
  end.

(** [k in l] for a list of strings. *)
Fixpoint mem (k : string) (l : list string) : bool :=
  match l with
  | [] => false
  | x :: l' => String.eqb k x || mem k l'
  end.

(** ** Casing converter *)

Definition is_lower (c : ascii) : bool :=
  let n := nat_of_ascii c in Nat.leb 97 n && Nat.leb n 122.
Definition is_upper (c : ascii) : bool :=
  let n := nat_of_ascii c in Nat.leb 65 n && Nat.leb n 90.
Definition is_digit (c : ascii) : bool :=
  let n := nat_of_ascii c in Nat.leb 48 n && Nat.leb n 57.

Definition upper_char (c : ascii) : ascii :=
  if is_lower c then ascii_of_nat (nat_of_ascii c - 32) else c.
Definition lower_char (c : ascii) : ascii :=
  if is_upper c then ascii_of_nat (nat_of_ascii c + 32) else c.

(** [s.lower()] on ASCII text: the keys of the models and the columns
    are ASCII identifiers. A character outside ASCII is left as it is,
    whereas Python lowers those too. *)
Fixpoint lower (s : string) : string :=
  match s with
  | EmptyString => EmptyString
  | String c s' => String (lower_char c) (lower s')
  end.

(** [re.sub(r'_([a-z0-9])', lambda match: match.group(1).upper(), snake_str)]:
    scanning from the left, an underscore followed by a lowercase letter
    or a digit is replaced, together with that character, by the
    character in upper case; the scan goes on after the pair. *)
Fixpoint snake_to_camel (snake_str : string) : string :=
  match snake_str with
  | EmptyString => EmptyString
  | String c rest =>
      match rest with
      | String d rest' =>
          if Ascii.eqb c "_" && (is_lower d || is_digit d)
          then String (upper_char d) (snake_to_camel rest')
          else String c (snake_to_camel rest)
      | EmptyString => String c EmptyString
      end
  end.

(** The value conversion of [row_to_camel_dict]: identifiers and
    dates/times become text, everything else passes. *)
Definition externalize_value (v : pyval) : pyval :=
  match v with
  | PUuid u => PStr (uuid_str u)
  | PDatetime t => PStr (datetime_isoformat t)
  | PDate d => PStr (date_isoformat d)
  | _ => v
  end.

Definition row_to_camel_items (items : dict) : dict :=
  fold_left
    (fun camel_dict kv =>
       dict_set (snake_to_camel (fst kv)) (externalize_value (snd kv)) camel_dict)
    items [].

Definition row_to_camel_dict (row : option dict) : option dict :=
  match row with
  | None => None
  | Some r => Some (row_to_camel_items r)
  end.

(** [re.sub(r'(?<!^)(?=[A-Z])', '_', k)]: an underscore goes in front of
    every upper-case letter that is not the first character. *)
Fixpoint underscore_uppers (s : string) : string :=
  match s with
  | EmptyString => EmptyString
  | String c s' =>
      if is_upper c then String "_" (String c (underscore_uppers s'))
      else String c (underscore_uppers s')
  end.

Definition sub_boundaries (k : string) : string :=
  match k with
  | EmptyString => EmptyString
  | String c s' => String c (underscore_uppers s')
  end.

(** The key computed in the loop of [camel_to_snake_dict]. *)
Definition snake_key (k : string) : string :=
  let snake_key := lower (sub_boundaries k) in
  if String.eqb k "location" then "address"
  else if String.eqb k "employees" then "employee_estimate"
  else snake_key.

Definition camel_to_snake_items (items : dict) : dict :=
  fold_left
    (fun snake_dict kv => dict_set (snake_key (fst kv)) (snd kv) snake_dict)
    items [].

Definition camel_to_snake_dict (camel_dict : option dict) : option dict :=
  match camel_dict with
  | None => None
  | Some d => Some (camel_to_snake_items d)
  end.

(** ** Allow-lists and the filter *)

Definition allowed_columns : list string :=
  [ "id"; "name"; "logo_url"; "city"; "foundation_date"; "domain"; "employee_range";
    "categories"; "industry"; "address"; "contact_email"; "revenue"; "active";
    "catchall_email_domain"; "cleaned_phone_number"; "additional_industries";
    "alexa_rank"; "angel_list_profile_url"; "blog_url"; "business_industries";
    "country_name"; "crunchbase_url"; "employee_estimate"; "facebook_profile_url";
    "full_address"; "linkedin_id"; "linkedin_profile_url"; "main_domain";
    "main_phone_cleaned_number"; "main_phone_number"; "main_phone_source";
    "search_keywords"; "spoken_languages"; "state_name"; "stock_exchange";
    "stock_symbol"; "store_count"; "twitter_profile_url"; "website_url";
    "year_founded"; "zip_code"; "created_at"; "updated_at" ].

Definition allowed_update_columns : list string :=
  [ "name"; "logo_url"; "city"; "foundation_date"; "domain"; "employee_range";
    "categories"; "industry"; "address"; "contact_email"; "revenue"; "active";
    "catchall_email_domain"; "cleaned_phone_number"; "additional_industries";
    "alexa_rank"; "angel_list_profile_url"; "blog_url"; "business_industries";
    "country_name"; "crunchbase_url"; "employee_estimate"; "facebook_profile_url";
    "full_address"; "linkedin_id"; "linkedin_profile_url"; "main_domain";
    "main_phone_cleaned_number"; "main_phone_number"; "main_phone_source";
    "search_keywords"; "spoken_languages"; "state_name"; "stock_exchange";
    "stock_symbol"; "store_count"; "twitter_profile_url"; "website_url";
    "year_founded"; "zip_code"; "updated_at" ].

(** [{k: v for k, v in d.items() if k in allowed and v is not None}]:
    the keys of [d] are distinct, so the comprehension keeps the selected
    items in their order. *)
Definition filter_allowed (allowed : list string) (d : dict) : dict :=
  filter (fun kv => mem (fst kv) allowed && negb (is_None (snd kv))) d.

(** ** Exceptions and effects *)

Inductive exn :=
| HTTPException (status_code : Z) (detail : string)
| NameError (name : string)
| KeyError (key : string)
| TypeError (msg : string)
| ValueError (msg : string)
| ValidationError (model : string)
| Psycopg2Error (msg : string).

Inductive result (A : Type) :=
| Ok (a : A)
| Raise (e : exn).
Arguments Ok {A} a.
Arguments Raise {A} e.

(** A computation over a state [S] that returns or raises; the state
    survives an exception. *)
Definition St (S A : Type) : Type := S -> result A * S.

Definition ret {S A} (a : A) : St S A := fun s => (Ok a, s).
Definition raise {S A} (e : exn) : St S A := fun s => (Raise e, s).

Definition bind {S A B} (m : St S A) (k : A -> St S B) : St S B :=
  fun s =>
    match m s with
    | (Ok a, s') => k a s'
    | (Raise e, s') => (Raise e, s')
    end.

Notation "x <- m ;; k" := (bind m (fun x => k))
  (at level 61, m at next level, right associativity).
Notation "m ;;; k" := (bind m (fun _ => k))
  (at level 61, right associativity).

(** [try: m  except Exception as e: handler e]; every exception of this
    program derives from [Exception]. *)
Definition try_except {S A} (m : St S A) (handler : exn -> St S A) : St S A :=
  fun s =>
    match m s with
    | (Ok a, s') => (Ok a, s')
    | (Raise e, s') => handler e s'
    end.

(** The names bound in the module's global scope: its imports, classes,
    functions and [router]. [Response] is not among them, and is no
    builtin either. *)
Definition module_globals : list string :=
  [ "psycopg2"; "db"; "contextmanager"; "uuid"; "re"; "date"; "datetime";
    "APIRouter"; "HTTPException"; "BaseModel"; "Field"; "List"; "Optional";
    "get_db_connection"; "get_db_cursor"; "snake_to_camel"; "row_to_camel_dict";
    "camel_to_snake_dict"; "Company"; "CompanyListItem"; "CreateCompanyRequest";
    "UpdateCompanyRequest"; "ListCompaniesResponse"; "GetCompanyResponse";
    "UpsertCompanyResponse"; "router"; "list_companies"; "get_company";
    "create_company"; "update_company"; "delete_company" ].

(** Evaluating a global name inside a function body. *)
Definition load_global {S} (name : string) : St S unit :=
  if mem name module_globals then ret tt else raise (NameError name).

(** ** The store

    The relational store is outside the repository; it is modelled by the
    contract the handlers rely on. A table is a list of rows, a row binds
    column names to values and an unbound column is NULL. Every
    connection works on its own copy of the committed table: what it
    writes is invisible to other connections until it commits, and is
    discarded when the connection is closed without a commit (psycopg2
    connections are not in autocommit mode, and PostgreSQL has no dirty
    reads). The order of the rows in the list has no meaning of its own:
    the store gives no order without an ORDER BY. Of the column types
    only what the source says is modelled ([revenue] is a bigint); the
    constraints of the table are not. *)

Definition table := list dict.

Inductive statement :=
| SelectCompany
| InsertCompany (columns : list string)
| UpdateCompany (columns : list string)
| DeleteCompany.

Definition select_columns : list string :=
  [ "id"; "name"; "industry"; "address"; "logo_url"; "revenue";
    "employee_estimate"; "created_at"; "updated_at" ].

(** The query texts, as the handlers build them (the layout of the
    triple-quoted SELECT is put on one line). *)
Definition select_query : string :=
  "SELECT " ++ String.concat ", " select_columns ++ " FROM companies WHERE id = %s;".

Definition insert_query (columns : list string) : string :=
  let values_placeholders := String.concat ", " (repeat "%s" (length columns)) in
  let columns_str := String.concat ", " columns in
  "INSERT INTO companies (" ++ columns_str ++ ") VALUES (" ++ values_placeholders
    ++ ") RETURNING id;".

Definition update_query (columns : list string) : string :=
  let set_clause := String.concat ", " (map (fun col => col ++ " = %s") columns) in
  "UPDATE companies SET " ++ set_clause ++ " WHERE id = %s RETURNING id;".

Definition delete_query : string :=
  "DELETE FROM companies WHERE id = %s RETURNING id;".

Definition sql_text (q : statement) : string :=
  match q with
  | SelectCompany => select_query
  | InsertCompany columns => insert_query columns
  | UpdateCompany columns => update_query columns
  | DeleteCompany => delete_query
  end.

Definition column (c : string) (row : dict) : pyval :=
  match dict_get c row with Some v => v | None => PNone end.

(** [WHERE id = %s]: NULL matches nothing, otherwise the identifier is
    compared with the parameter by its text. *)
Definition id_matches (p : pyval) (row : dict) : bool :=
  negb (is_None (column "id" row)) && negb (is_None p)
    && String.eqb (py_str (column "id" row)) (py_str p).

Definition project (columns : list string) (row : dict) : dict :=
  map (fun c => (c, column c row)) columns.

Definition returning_id (row : dict) : dict := [("id", column "id" row)].

Definition assign (sets : dict) (row : dict) : dict :=
  fold_left (fun r kv => dict_set (fst kv) (snd kv) r) sets row.

(** A 64-bit integer, or NULL. *)
Definition fits_bigint (v : pyval) : bool :=
  match v with
  | PNone => true
  | PInt z => Z.leb (- 2 ^ 63) z && Z.ltb z (2 ^ 63)
  | _ => false
  end.

(** The values fit the columns they are written to, as far as the source
    tells the types: [revenue] is a bigint (a value that is no integer is
    taken to be refused there). *)
Definition fits_columns (sets : dict) : bool :=
  forallb (fun kv => if String.eqb (fst kv) "revenue" then fits_bigint (snd kv) else true)
          sets.

(** The effect of a statement on a table and the rows it returns. *)
Definition run_statement (q : statement) (params : list pyval) (t : table)
  : result (table * list dict) :=
  match q, params with
  | SelectCompany, [p] =>
      Ok (t, map (project select_columns) (filter (id_matches p) t))
  | InsertCompany columns, vals =>
      if Nat.eqb (length columns) (length vals)
      then
        let row := combine columns vals in
        if fits_columns row
        then Ok ((t ++ [row])%list, [returning_id row])
        else Raise (Psycopg2Error "bigint out of range")
      else Raise (Psycopg2Error "not all arguments converted")
  | UpdateCompany columns, ps =>
      if Nat.eqb (S (length columns)) (length ps)
      then
        let sets := combine columns (firstn (length columns) ps) in
        let p := nth (length columns) ps PNone in
        if fits_columns sets
        then
          Ok (map (fun row => if id_matches p row then assign sets row else row) t,
              map returning_id (filter (id_matches p) t))
        else Raise (Psycopg2Error "bigint out of range")
      else Raise (Psycopg2Error "not all arguments converted")
  | DeleteCompany, [p] =>
      Ok (filter (fun row => negb (id_matches p row)) t,
          map returning_id (filter (id_matches p) t))
  | _, _ => Raise (Psycopg2Error "not all arguments converted")
  end.

(** What all requests share: the configured secret, whether the server
    accepts connections, the committed table, and the statements sent so
    far. *)
Record world := mk_world {
  postgres_url : option string;
  db_up : bool;
  committed : table;
  executed : list (string * list pyval) }.

(** An open connection with its cursor: the connection's view of the
    table and the rows of the last statement still to be fetched. *)
Record connection := mk_connection {
  working : table;
  result_set : list dict }.

Definition M (A : Type) : Type := St world A.
Definition Conn (A : Type) : Type := St (connection * world) A.

(** A handler-level computation run while a connection is open. *)
Definition lift {A} (m : M A) : Conn A :=
  fun cw => let (r, w') := m (snd cw) in (r, (fst cw, w')).

Definition psycopg2_connect (db_url : string) : M connection :=
  fun w =>
    if db_up w then (Ok (mk_connection (committed w) []), w)
    else (Raise (Psycopg2Error "could not connect to server"), w).

Definition set_committed (t : table) (w : world) : world :=
  mk_world (postgres_url w) (db_up w) t (executed w).

Definition log_statement (q : statement) (params : list pyval) (w : world) : world :=
  mk_world (postgres_url w) (db_up w) (committed w)
           (executed w ++ [(sql_text q, params)])%list.

Definition conn_commit : Conn unit :=
  fun cw => (Ok tt, (fst cw, set_committed (working (fst cw)) (snd cw))).

(** What psycopg2 adapts to SQL as it is set up here: a [uuid.UUID]
    object is not among it, [register_uuid] is never called. *)
Definition adaptable (v : pyval) : bool :=
  match v with
  | PUuid _ => false
  | _ => true
  end.

(** [cursor.execute(query, params)]: the parameters are adapted first;
    when one cannot be, the driver raises and nothing is sent. *)
Definition cursor_execute (q : statement) (params : list pyval) : Conn unit :=
  fun cw =>
    if forallb adaptable params
    then
      let w' := log_statement q params (snd cw) in
      match run_statement q params (working (fst cw)) with
      | Ok (t', rows) => (Ok tt, (mk_connection t' rows, w'))
      | Raise e => (Raise e, (fst cw, w'))
      end
    else (Raise (Psycopg2Error "can't adapt type 'UUID'"), cw).

Definition cursor_fetchone : Conn (option dict) :=
  fun cw =>
    match result_set (fst cw) with
    | [] => (Ok None, cw)
    | row :: rows => (Ok (Some row), (mk_connection (working (fst cw)) rows, snd cw))
    end.

(** ** The context managers *)

(** [not db_url] *)
Definition not_url (db_url : option string) : bool :=
  match db_url with
  | None => true
  | Some s => String.eqb s ""
  end.

(** [get_db_connection], with [body] at the place of [yield conn]. An
    exception of [body] is raised at the [yield]: the [except] clause
    re-raises it and the [finally] clause closes the connection, which
    discards what was not committed. When [connect] itself raises, [conn]
    is still [None]. *)
Definition get_db_connection {A} (body : Conn A) : M A :=
  fun w =>
    let db_url := postgres_url w in
    if not_url db_url
    then (Raise (ValueError "Database connection URL not configured."), w)
    else
      match psycopg2_connect (match db_url with Some s => s | None => "" end) w with
      | (Raise e, w1) => (Raise e, w1)
      | (Ok conn, w1) =>
          match try_except body (fun e => raise e) (conn, w1) with
          | (r, (conn', w2)) => (r, w2)
          end
      end.

(** [get_db_cursor], with [body] at the place of [yield cursor]. The
    commit stands after the [yield] and is reached only when [body] ends
    without an exception. Whatever is raised under the outer [try], by
    [body] too, is stored in [conn_exception]; an exception object is
    truthy, so the test after the [try] raises the 500 in its place. *)
Definition get_db_cursor {A} (commit : bool) (body : Conn A) : M A :=
  try_except
    (get_db_connection
       (a <- body ;;
        (if commit then conn_commit else ret tt) ;;;
        ret a))
    (fun conn_exception =>
       raise (HTTPException 500 "Database operation failed.")).

(** ** Request and response models *)

(** An optional field of a request: not in the body at all, or given,
    possibly as [null]. [model_dump(exclude_unset=True)] lists the given
    fields only. *)
Inductive field (T : Type) :=
| Unset
| Given (v : option T).
Arguments Unset {T}.
Arguments Given {T} v.

Definition of_str (o : option string) : pyval :=
  match o with Some s => PStr s | None => PNone end.
Definition of_int (o : option Z) : pyval :=
  match o with Some z => PInt z | None => PNone end.

Definition dump_field {T} (k : string) (conv : option T -> pyval) (f : field T) : dict :=
  match f with
  | Unset => []
  | Given v => [(k, conv v)]
  end.

(** A JSON request body, as far as the models look at it. *)
Inductive json :=
| JNull
| JStr (s : string)
| JInt (z : Z)
| JBool (b : bool).

Definition body := list (string * json).

Fixpoint body_get (k : string) (b : body) : option json :=
  match b with
  | [] => None
  | (k', v) :: b' => if String.eqb k k' then Some v else body_get k b'
  end.

(** Validation of one field; [None] is a validation error. Extra keys
    of the body are ignored. For an integer field only JSON integers and
    [null] are modelled: Pydantic's lax mode also takes a numeral given
    as a string, which is refused here. *)
Definition required_str (k : string) (b : body) : option string :=
  match body_get k b with
  | Some (JStr s) => Some s
  | _ => None
  end.

Definition optional_str (k : string) (b : body) : option (field string) :=
  match body_get k b with
  | None => Some Unset
  | Some JNull => Some (Given None)
  | Some (JStr s) => Some (Given (Some s))
  | Some _ => None
  end.

Definition optional_int (k : string) (b : body) : option (field Z) :=
  match body_get k b with
  | None => Some Unset
  | Some JNull => Some (Given None)
  | Some (JInt z) => Some (Given (Some z))
  | Some _ => None
  end.

Module CreateCompanyRequest.
Record t := mk {
  name : string;
  industry : string;
  location : string;
  logoUrl : field string;
  revenue : field Z;
  employees : field Z }.

Definition validate (b : body) : option t :=
  match required_str "name" b, required_str "industry" b, required_str "location" b,
        optional_str "logoUrl" b, optional_int "revenue" b, optional_int "employees" b with
  | Some n, Some i, Some l, Some u, Some r, Some e => Some (mk n i l u r e)
  | _, _, _, _, _, _ => None
  end.

Definition model_dump (r : t) : dict :=
  ([("name", PStr (name r)); ("industry", PStr (industry r));
    ("location", PStr (location r))]
   ++ dump_field "logoUrl" of_str (logoUrl r)
   ++ dump_field "revenue" of_int (revenue r)
   ++ dump_field "employees" of_int (employees r))%list.
End CreateCompanyRequest.

Module UpdateCompanyRequest.
Record t := mk {
  name : field string;
  industry : field string;
  location : field string;
  logoUrl : field string;
  revenue : field Z;
  employees : field Z }.

Definition validate (b : body) : option t :=
  match optional_str "name" b, optional_str "industry" b, optional_str "location" b,
        optional_str "logoUrl" b, optional_int "revenue" b, optional_int "employees" b with
  | Some n, Some i, Some l, Some u, Some r, Some e => Some (mk n i l u r e)
  | _, _, _, _, _, _ => None
  end.

Definition model_dump (r : t) : dict :=
  (dump_field "name" of_str (name r)
   ++ dump_field "industry" of_str (industry r)
   ++ dump_field "location" of_str (location r)
   ++ dump_field "logoUrl" of_str (logoUrl r)
   ++ dump_field "revenue" of_int (revenue r)
   ++ dump_field "employees" of_int (employees r))%list.
End UpdateCompanyRequest.

(** The [Company] response model. [id], [createdAt] and [updatedAt] are
    kept in the text form in which [row_to_camel_dict] hands them over
    and in which the JSON response carries them. [location] and
    [employees] are populated from their aliases [address] and
    [employeeEstimate], or by name ([populate_by_name]). *)
Module Company.
Record t := mk {
  id : string;
  name : string;
  industry : option string;
  location : option string;
  logoUrl : option string;
  revenue : option Z;
  employees : option Z;
  createdAt : string;
  updatedAt : string }.

Definition lookup (alias name : string) (d : dict) : option pyval :=
  match dict_get alias d with
  | Some v => Some v
  | None => dict_get name d
  end.

Definition req_text (v : option pyval) : option string :=
  match v with
  | Some (PStr s) => Some s
  | Some (PUuid u) => Some (uuid_str u)
  | Some (PDatetime t) => Some (datetime_isoformat t)
  | _ => None
  end.

Definition req_str (v : option pyval) : option string :=
  match v with
  | Some (PStr s) => Some s
  | _ => None
  end.

Definition opt_str (v : option pyval) : option (option string) :=
  match v with
  | None | Some PNone => Some None
  | Some (PStr s) => Some (Some s)
  | Some _ => None
  end.

Definition opt_int (v : option pyval) : option (option Z) :=
  match v with
  | None | Some PNone => Some None
  | Some (PInt z) => Some (Some z)
  | Some _ => None
  end.

Definition model_validate (company_data : option dict) : option t :=
  match company_data with
  | None => None
  | Some d =>
      match req_text (dict_get "id" d), req_str (dict_get "name" d),
            opt_str (dict_get "industry" d), opt_str (lookup "address" "location" d),
            opt_str (dict_get "logoUrl" d), opt_int (dict_get "revenue" d),
            opt_int (lookup "employeeEstimate" "employees" d),
            req_text (dict_get "createdAt" d), req_text (dict_get "updatedAt" d) with
      | Some i, Some n, Some ind, Some loc, Some logo, Some rev, Some emp, Some c, Some u =>
          Some (mk i n ind loc logo rev emp c u)
      | _, _, _, _, _, _, _, _, _ => None
      end
  end.
End Company.

(** [Response(status_code=...)] *)
Record Response := mk_Response { status_code_of : Z }.

(** ** Resource handlers *)

(** The three [except] clauses that close every handler: an
    [HTTPException] is re-raised, a [psycopg2.Error] and any other
    exception become a 500 with the handler's own message. *)
Definition handler_excepts {S A} (db_detail other_detail : string) (e : exn) : St S A :=
  match e with
  | HTTPException _ _ => raise e
  | Psycopg2Error msg => raise (HTTPException 500 (db_detail ++ msg))
  | _ => raise (HTTPException 500 other_detail)
  end.

(** [d[k]] *)
Definition getitem {S} (k : string) (d : dict) : St S pyval :=
  match dict_get k d with
  | Some v => ret v
  | None => raise (KeyError k)
  end.

Definition get_company (company_id : pyval) : M Company.t :=
  try_except
    (get_db_cursor false
       (cursor_execute SelectCompany [PStr (py_str company_id)] ;;;
        result <- cursor_fetchone ;;
        match result with
        | None => raise (HTTPException 404 "Company not found")
        | Some _ =>
            let company_data := row_to_camel_dict result in
            match Company.model_validate company_data with
            | Some validated_company => ret validated_company
            | None => raise (ValidationError "Company")
            end
        end))
    (fun e =>
       match e with
       | HTTPException _ _ => raise e
       | _ => raise (HTTPException 500 "Failed to retrieve company details from database.")
       end).

(** The field set of the INSERT (lines 244 to 274): [new_id] is the
    result of [uuid.uuid4()], [now] of [datetime.now()], [dumped] of
    [request.model_dump(exclude_unset=True)]. *)
Definition create_insert_data (new_id : uuid) (now : datetime) (dumped : dict)
  : result dict :=
  match camel_to_snake_dict (Some dumped) with
  | None => Raise (TypeError "'NoneType' object does not support item assignment")
  | Some company_data_snake =>
      let company_data_snake := dict_set "id" (PUuid new_id) company_data_snake in
      let company_data_snake := dict_set "created_at" (PDatetime now) company_data_snake in
      let company_data_snake := dict_set "updated_at" (PDatetime now) company_data_snake in
      let insert_data := filter_allowed allowed_columns company_data_snake in
      if negb (dict_mem "name" insert_data)
      then Raise (HTTPException 400 "Company name is required.")
      else
        let insert_data :=
          if negb (dict_mem "id" insert_data)
          then dict_set "id" (PUuid new_id) insert_data else insert_data in
        let insert_data :=
          if negb (dict_mem "created_at" insert_data)
          then dict_set "created_at" (PDatetime now) insert_data else insert_data in
        let insert_data :=
          if negb (dict_mem "updated_at" insert_data)
          then dict_set "updated_at" (PDatetime now) insert_data else insert_data in
        Ok insert_data
  end.

(** [not d] for an optional dictionary. *)
Definition not_dict (d : option dict) : bool :=
  match d with
  | None | Some [] => true
  | Some _ => false
  end.

(** The columns and the values of the INSERT (lines 278 to 283). *)
Definition insert_parameters (insert_data : dict) : list string * list pyval :=
  let columns := keys insert_data in
  let values := map (fun col => column col insert_data) columns in
  (columns, values).

Definition create_company_dumped (new_id : uuid) (now : datetime) (dumped : dict)
  : M Company.t :=
  match create_insert_data new_id now dumped with
  | Raise e => raise e
  | Ok insert_data =>
      let (columns, values) := insert_parameters insert_data in
      try_except
        (get_db_cursor true
           (cursor_execute (InsertCompany columns) values ;;;
            inserted_row <- cursor_fetchone ;;
            if not_dict inserted_row
            then raise (HTTPException 500 "Failed to retrieve created company ID.")
            else
              inserted_id <- getitem "id" (match inserted_row with Some r => r | None => [] end) ;;
              lift (get_company inserted_id)))
        (handler_excepts "Database error during company creation: "
                         "Failed to create company in database.")
  end.

Definition create_company (new_id : uuid) (now : datetime)
    (request : CreateCompanyRequest.t) : M Company.t :=
  create_company_dumped new_id now (CreateCompanyRequest.model_dump request).

(** The field set of the UPDATE (lines 315 to 341). *)
Definition update_fields_of (now : datetime) (dumped : dict) : result dict :=
  let update_data_snake := camel_to_snake_dict (Some dumped) in
  if not_dict update_data_snake
  then Raise (HTTPException 400 "No update data provided.")
  else
    let update_data_snake :=
      dict_set "updated_at" (PDatetime now)
               (match update_data_snake with Some d => d | None => [] end) in
    let update_fields := filter_allowed allowed_update_columns update_data_snake in
    if not_dict (Some update_fields)
       || forallb (fun k => String.eqb k "updated_at") (keys update_fields)
    then Raise (HTTPException 400 "No valid fields provided for update.")
    else Ok update_fields.

Definition update_company_dumped (company_id : pyval) (now : datetime) (dumped : dict)
  : M Company.t :=
  match update_fields_of now dumped with
  | Raise e => raise e
  | Ok update_fields =>
      let values := (values update_fields ++ [PStr (py_str company_id)])%list in
      try_except
        (get_db_cursor true
           (cursor_execute (UpdateCompany (keys update_fields)) values ;;;
            result <- cursor_fetchone ;;
            match result with
            | None => raise (HTTPException 404 "Company not found")
            | Some r =>
                updated_id <- getitem "id" r ;;
                lift (get_company updated_id)
            end))
        (handler_excepts "Database error during company update: "
                         "Failed to update company in database.")
  end.

Definition update_company (company_id : pyval) (now : datetime)
    (request : UpdateCompanyRequest.t) : M Company.t :=
  update_company_dumped company_id now (UpdateCompanyRequest.model_dump request).

Definition delete_company (company_id : pyval) : M Response :=
  try_except
    (get_db_cursor true
       (cursor_execute DeleteCompany [PStr (py_str company_id)] ;;;
        result <- cursor_fetchone ;;
        match result with
        | None => raise (HTTPException 404 "Company not found")
        | Some r =>
            deleted_id <- getitem "id" r ;;
            load_global "Response" ;;;
            ret (mk_Response 204)
        end))
    (handler_excepts "Database error during company deletion: "
                     "Failed to delete company from database.").

(** ** Routes

    What the router does around a handler: the body of a POST or PUT is
    validated against the request model before the handler is called
    (422 when it does not validate), the result of the handler is sent
    with the route's success status, an [HTTPException] with its own
    status, and a [Response] object as it is. *)

Inductive content :=
| Empty
| CompanyContent (company : Company.t)
| Detail (detail : string).

Record http_response := mk_http_response {
  status : Z;
  payload : content }.

Definition respond {A} (render : A -> http_response) (r : result A) : http_response :=
  match r with
  | Ok a => render a
  | Raise (HTTPException status_code detail) => mk_http_response status_code (Detail detail)
  | Raise _ => mk_http_response 500 (Detail "Internal Server Error")
  end.

Definition route {A} (render : A -> http_response) (m : M A) (w : world)
  : http_response * world :=
  let (r, w') := m w in (respond render r, w').

Definition unprocessable : http_response :=
  mk_http_response 422 (Detail "Unprocessable Entity").

Definition GET_company (company_id : uuid) : world -> http_response * world :=
  route (fun c => mk_http_response 200 (CompanyContent c)) (get_company (PUuid company_id)).

Definition POST_companies (new_id : uuid) (now : datetime) (b : body)
  : world -> http_response * world :=
  match CreateCompanyRequest.validate b with
  | None => fun w => (unprocessable, w)
  | Some request =>
      route (fun c => mk_http_response 201 (CompanyContent c))
            (create_company new_id now request)
  end.

Definition PUT_company (company_id : uuid) (now : datetime) (b : body)
  : world -> http_response * world :=
  match UpdateCompanyRequest.validate b with
  | None => fun w => (unprocessable, w)
  | Some request =>
      route (fun c => mk_http_response 200 (CompanyContent c))
            (update_company (PUuid company_id) now request)
  end.

Definition DELETE_company (company_id : uuid) : world -> http_response * world :=
  route (fun r => mk_http_response (status_code_of r) Empty)
        (delete_company (PUuid company_id)).

(** ** Auxiliary notions for the statements *)

(** A loop that assigns [d[f k] = g v] for the items of a dictionary:
    the shape of the loops of [row_to_camel_dict] and
    [camel_to_snake_dict]. *)
Definition rekey (f : string -> string) (g : pyval -> pyval) (items acc : dict) : dict :=
  fold_left (fun d kv => dict_set (f (fst kv)) (g (snd kv)) d) items acc.

(** A key without upper-case letters and digits. *)
Definition plain_char (c : ascii) : bool := negb (is_upper c || is_digit c).

Fixpoint plain (s : string) : bool :=
  match s with
  | EmptyString => true
  | String c s' => plain_char c && plain s'
  end.

(** Every item is under an allowed column and has a value. *)
Definition clean (allowed : list string) (d : dict) : Prop :=
  Forall (fun kv => In (fst kv) allowed /\ snd kv <> PNone) d.

(** The secret is set and the server accepts connections. *)
Definition configured (w : world) : bool :=
  negb (not_url (postgres_url w)) && db_up w.

(** The row a [SelectCompany] lets [fetchone] return. *)
Definition select_company (p : pyval) (t : table) : option dict :=
  hd_error (map (project select_columns) (filter (id_matches p) t)).

(** The table after an [UpdateCompany] that assigns [sets] under the
    identifier [p]. *)
Definition update_rows (p : pyval) (sets : dict) (t : table) : table :=
  map (fun row => if id_matches p row then assign sets row else row) t.

(** What [get_db_cursor] raises in the place of any exception. *)
Definition operation_failed : exn :=
  HTTPException 500 "Database operation failed.".

(** A logged statement whose text has only allow-listed column names
    interpolated. *)
Definition safe_entry (e : string * list pyval) : Prop :=
  fst e = select_query
  \/ fst e = delete_query
  \/ (exists columns,
         Forall (fun c => In c allowed_columns) columns
         /\ fst e = insert_query columns)
  \/ (exists columns,
         Forall (fun c => In c allowed_update_columns) columns
         /\ fst e = update_query columns).

(** A row with this identifier is in the table. *)
Definition has_company (u : uuid) (t : table) : bool :=
  existsb (id_matches (PStr (uuid_str u))) t.

(** ** Listing companies *)

(** The [CompanyListItem] response model; [id] in text form, [location]
    and [employees] populated from their aliases or by name. *)
Module CompanyListItem.
Record t := mk {
  id : string;
  name : string;
  industry : option string;
  location : option string;
  logoUrl : option string;
  employees : option Z }.

Definition model_validate (company_data : option dict) : option t :=
  match company_data with
  | None => None
  | Some d =>
      match Company.req_text (dict_get "id" d), Company.req_str (dict_get "name" d),
            Company.opt_str (dict_get "industry" d),
            Company.opt_str (Company.lookup "address" "location" d),
            Company.opt_str (dict_get "logoUrl" d),
            Company.opt_int (Company.lookup "employeeEstimate" "employees" d) with
      | Some i, Some n, Some ind, Some loc, Some logo, Some emp =>
          Some (mk i n ind loc logo emp)
      | _, _, _, _, _, _ => None
      end
  end.
End CompanyListItem.

Definition list_columns : list string :=
  [ "id"; "name"; "industry"; "address"; "logo_url"; "employee_estimate" ].

(** The query of [list_companies], on one line. *)
Definition list_query : string :=
  "SELECT " ++ String.concat ", " list_columns ++ " FROM companies ORDER BY name ASC;".

(** [cursor.fetchall()] *)
Definition cursor_fetchall : Conn (list dict) :=
  fun cw => (Ok (result_set (fst cw)), (mk_connection (working (fst cw)) [], snd cw)).

Section ListCompanies.

(** The order in which the store returns the rows of a table for
    [ORDER BY name ASC]; it depends on the collation of the server. *)
Variable order_by_name : table -> table.

(** [cursor.execute(query)] for the query of [list_companies]. *)
Definition cursor_execute_list : Conn unit :=
  fun cw =>
    let w := snd cw in
    (Ok tt,
     (mk_connection (working (fst cw))
                    (map (project list_columns) (order_by_name (working (fst cw)))),
      mk_world (postgres_url w) (db_up w) (committed w)
               (executed w ++ [(list_query, [])])%list)).

(** The loop over [results], appending to [companies_list]. *)
Fixpoint validate_rows (results : list dict) (companies_list : list CompanyListItem.t)
  : Conn (list CompanyListItem.t) :=
  match results with
  | [] => ret companies_list
  | row :: results' =>
      let company_data := row_to_camel_dict (Some row) in
      match CompanyListItem.model_validate company_data with
      | Some item => validate_rows results' (companies_list ++ [item])%list
      | None => raise (ValidationError "CompanyListItem")
      end
  end.

(** [list_companies]: [get_db_cursor] never ends the [with] block
    silently after an exception, so the [return] after the [try] is
    reached only with the complete list. *)
Definition list_companies : M (list CompanyListItem.t) :=
  try_except
    (get_db_cursor false
       (cursor_execute_list ;;;
        results <- cursor_fetchall ;;
        validate_rows results []))
    (fun e =>
       match e with
       | HTTPException _ _ => raise e
       | _ => raise (HTTPException 500 "Failed to retrieve companies from database.")
       end).

End ListCompanies.

(** ** Further notions for the statements *)

(** Keys of lowercase letters and underscores that start with a letter
    (or are empty). *)
Definition snake_char (c : ascii) : bool := is_lower c || Ascii.eqb c "_".

Fixpoint all_chars (p : ascii -> bool) (s : string) : bool :=
  match s with
  | EmptyString => true
  | String c s' => p c && all_chars p s'
  end.

Definition snake_ident (k : string) : bool :=
  match k with
  | EmptyString => true
  | String c _ => is_lower c && all_chars snake_char k
  end.

(** Keys of letters and digits that do not start with an upper-case
    letter. *)
Definition camel_char (c : ascii) : bool := is_lower c || is_upper c || is_digit c.

Definition camel_ident (k : string) : bool :=
  match k with
  | EmptyString => true
  | String c _ => negb (is_upper c) && all_chars camel_char k
  end.

(** A value as a JSON document carries it: no identifier or date
    object. *)
Definition is_scalar (v : pyval) : bool :=
  match v with
  | PNone | PStr _ | PInt _ => true
  | _ => false
  end.

(** What the response models make of a column: the externalized value
    of the column is the field, [None] for NULL. *)
Definition shows_text (field : string) (v : pyval) : Prop :=
  externalize_value v = PStr field.
Definition shows_opt_text (field : option string) (v : pyval) : Prop :=
  externalize_value v = of_str field.
Definition shows_opt_int (field : option Z) (v : pyval) : Prop :=
  v = of_int field.

Definition shows_company (c : Company.t) (row : dict) : Prop :=
  shows_text (Company.id c) (column "id" row)
  /\ shows_text (Company.name c) (column "name" row)
  /\ shows_opt_text (Company.industry c) (column "industry" row)
  /\ shows_opt_text (Company.location c) (column "address" row)
  /\ shows_opt_text (Company.logoUrl c) (column "logo_url" row)
  /\ shows_opt_int (Company.revenue c) (column "revenue" row)
  /\ shows_opt_int (Company.employees c) (column "employee_estimate" row)
  /\ shows_text (Company.createdAt c) (column "created_at" row)
  /\ shows_text (Company.updatedAt c) (column "updated_at" row).

Definition shows_item (row : dict) (item : CompanyListItem.t) : Prop :=
  shows_text (CompanyListItem.id item) (column "id" row)
  /\ shows_text (CompanyListItem.name item) (column "name" row)
  /\ shows_opt_text (CompanyListItem.industry item) (column "industry" row)
  /\ shows_opt_text (CompanyListItem.location item) (column "address" row)
  /\ shows_opt_text (CompanyListItem.logoUrl item) (column "logo_url" row)
  /\ shows_opt_int (CompanyListItem.employees item) (column "employee_estimate" row).

(** The items of the rows of a result, when every row validates. *)
Fixpoint validate_all (results : list dict) : option (list CompanyListItem.t) :=
  match results with
  | [] => Some []
  | row :: results' =>
      match CompanyListItem.model_validate (row_to_camel_dict (Some row)),
            validate_all results' with
      | Some item, Some items => Some (item :: items)
      | _, _ => None
      end
  end.

(** The store cannot be reached: no secret, an empty secret, or a
    server that refuses the connection. *)
Definition unreachable (w : world) : Prop :=
  postgres_url w = None \/ postgres_url w = Some "" \/ db_up w = false.

(** The item a request field contributes to a field set: none when the
    field is not given or given as [null]. *)
Definition column_item {T : Type} (col : string) (conv : T -> pyval) (f : field T) : dict :=
  match f with
  | Given (Some x) => [(col, conv x)]
  | _ => []
  end.

(** * Properties *)

(** ** Dictionaries *)

Lemma mem_In (k : string) (l : list string) : mem k l = true <-> In k l.
Proof.
  induction l as [|x l IH]; simpl.
  - split; [discriminate | tauto].
  - rewrite orb_true_iff, IH, String.eqb_eq. intuition congruence.
Qed.

Lemma forallb_mem_Forall (allowed l : list string) :
  forallb (fun k => mem k allowed) l = true -> Forall (fun k => In k allowed) l.
Proof.
  rewrite forallb_forall, Forall_forall.
  intros H k Hk. apply mem_In, H, Hk.
Qed.

Lemma dict_get_set_same (k : string) (v : pyval) (d : dict) :
  dict_get k (dict_set k v d) = Some v.
Proof.
  induction d as [|[k' v'] d IH]; simpl.
  - now rewrite String.eqb_refl.
  - destruct (String.eqb k k') eqn:E; simpl.
    + now rewrite String.eqb_refl.
    + now rewrite E.
Qed.

Lemma dict_get_set_other (k k' : string) (v : pyval) (d : dict) :
  k <> k' -> dict_get k' (dict_set k v d) = dict_get k' d.
Proof.
  intros Hne. induction d as [|[k1 v1] d IH]; simpl.
  - apply String.eqb_neq in Hne. rewrite String.eqb_sym in Hne. now rewrite Hne.
  - destruct (String.eqb k k1) eqn:E; simpl.
    + apply String.eqb_eq in E. subst k1.
      destruct (String.eqb k' k) eqn:E'; [|reflexivity].
      apply String.eqb_eq in E'. congruence.
    + now rewrite IH.
Qed.

Lemma dict_get_None (k : string) (d : dict) :
  dict_get k d = None <-> ~ In k (keys d).
Proof.
  induction d as [|[k' v'] d IH]; simpl.
  - tauto.
  - destruct (String.eqb k k') eqn:E.
    + apply String.eqb_eq in E. split; [discriminate | intros H; exfalso; auto].
    + apply String.eqb_neq in E. rewrite IH. intuition congruence.
Qed.

Lemma dict_get_In (k : string) (v : pyval) (d : dict) :
  dict_get k d = Some v -> In (k, v) d.
Proof.
  induction d as [|[k' v'] d IH]; simpl; [discriminate|].
  destruct (String.eqb k k') eqn:E.
  - apply String.eqb_eq in E. intros [= ->]. left. congruence.
  - auto.
Qed.

Lemma dict_mem_In (k : string) (d : dict) : dict_mem k d = true <-> In k (keys d).
Proof.
  unfold dict_mem. destruct (dict_get k d) eqn:E.
  - split; [intros _|reflexivity].
    apply dict_get_In in E. apply (in_map fst) in E. exact E.
  - apply dict_get_None in E. split; [discriminate | tauto].
Qed.

Lemma dict_set_fresh (k : string) (v : pyval) (d : dict) :
  ~ In k (keys d) -> dict_set k v d = (d ++ [(k, v)])%list.
Proof.
  induction d as [|[k' v'] d IH]; simpl; intros Hn; [reflexivity|].
  destruct (String.eqb k k') eqn:E.
  - apply String.eqb_eq in E. exfalso. auto.
  - rewrite IH; auto.
Qed.

Lemma dict_set_In (k : string) (v : pyval) (d : dict) (kv : string * pyval) :
  In kv (dict_set k v d) -> kv = (k, v) \/ In kv d.
Proof.
  induction d as [|[k' v'] d IH]; simpl.
  - intuition.
  - destruct (String.eqb k k'); simpl; intuition.
Qed.

Lemma dict_set_keys (k : string) (v : pyval) (d : dict) (k' : string) :
  In k' (keys (dict_set k v d)) <-> k' = k \/ In k' (keys d).
Proof.
  induction d as [|[k1 v1] d IH]; simpl.
  - intuition.
  - destruct (String.eqb k k1) eqn:E; simpl.
    + apply String.eqb_eq in E. subst. intuition.
    + rewrite IH. intuition.
Qed.

Section Rekey.

Variable f : string -> string.
Variable g : pyval -> pyval.

Lemma rekey_fresh (items : dict) :
  forall acc,
    NoDup (keys acc ++ map f (keys items)) ->
    rekey f g items acc = (acc ++ map (fun kv => (f (fst kv), g (snd kv))) items)%list.
Proof.
  unfold rekey. induction items as [|[k v] items IH]; simpl; intros acc Hnd.
  - now rewrite app_nil_r.
  - assert (Hk : ~ In (f k) (keys acc)).
    { intros Hin. apply NoDup_remove_2 in Hnd. apply Hnd, in_or_app. now left. }
    rewrite dict_set_fresh by exact Hk.
    rewrite IH.
    + now rewrite <- app_assoc.
    + unfold keys in *. rewrite map_app. simpl. rewrite <- app_assoc. exact Hnd.
Qed.

(** The value a loop of assignments leaves under a key [k0] that only
    the source key [k0] is sent to. *)
Lemma rekey_get (k0 : string) :
  f k0 = k0 ->
  (forall k, f k = k0 -> k = k0) ->
  forall items acc,
    NoDup (keys items) ->
    dict_get k0 (rekey f g items acc) =
    match dict_get k0 items with
    | Some v => Some (g v)
    | None => dict_get k0 acc
    end.
Proof.
  intros Hfix Hinv. unfold rekey.
  induction items as [|[k v] items IH]; simpl; intros acc Hnd; [reflexivity|].
  inversion Hnd as [|? ? Hnotin Hnd']; subst.
  rewrite IH by exact Hnd'.
  destruct (String.eqb k0 k) eqn:E.
  - apply String.eqb_eq in E. subst k.
    apply dict_get_None in Hnotin. rewrite Hnotin, Hfix.
    apply dict_get_set_same.
  - apply String.eqb_neq in E.
    destruct (dict_get k0 items); [reflexivity|].
    apply dict_get_set_other. intros Heq. apply E. symmetry. now apply Hinv.
Qed.

End Rekey.

Lemma NoDup_map_on {A B : Type} (f : A -> B) (l : list A) :
  (forall x y, In x l -> In y l -> f x = f y -> x = y) ->
  NoDup l -> NoDup (map f l).
Proof.
  induction l as [|a l IH]; simpl; intros Hinj Hnd; [constructor|].
  inversion Hnd as [|? ? Hnotin Hnd']; subst.
  constructor.
  - rewrite in_map_iff. intros (y & Hy & Hin).
    apply Hnotin. rewrite (Hinj a y); auto.
  - apply IH; auto.
Qed.

(** ** Casing converter *)

Lemma upper_char_not_plain (d : ascii) :
  is_lower d || is_digit d = true -> plain_char (upper_char d) = false.
Proof.
  destruct d as [[] [] [] [] [] [] [] []]; vm_compute; congruence.
Qed.

(** A key in which [snake_to_camel] finds something to replace comes out
    with an upper-case letter or a digit; a result without any is the
    key itself. *)
Lemma snake_to_camel_plain (n : nat) :
  forall s, String.length s <= n -> plain (snake_to_camel s) = true -> snake_to_camel s = s.
Proof.
  induction n as [|n IH]; intros s Hlen Hplain.
  - destruct s; [reflexivity | simpl in Hlen; lia].
  - destruct s as [|c [|d rest]]; try reflexivity.
    simpl in Hlen. revert Hplain. simpl.
    destruct (Ascii.eqb c "_" && (is_lower d || is_digit d)) eqn:E.
    + apply andb_true_iff in E. destruct E as [_ E].
      simpl. rewrite (upper_char_not_plain d E). discriminate.
    + intros Hplain. simpl in Hplain. apply andb_true_iff in Hplain.
      destruct Hplain as [_ Hplain].
      change (String c (snake_to_camel (String d rest)) = String c (String d rest)).
      f_equal. apply IH; [simpl; lia | exact Hplain].
Qed.

Lemma snake_to_camel_inv_plain (k0 : string) :
  plain k0 = true -> forall k, snake_to_camel k = k0 -> k = k0.
Proof.
  intros Hp k Hk. rewrite <- Hk.
  symmetry. apply (snake_to_camel_plain (String.length k)); [lia | now rewrite Hk].
Qed.

Lemma roundtrip_allowed_columns (k : string) :
  In k allowed_columns -> snake_key (snake_to_camel k) = k.
Proof.
  intros Hin.
  assert (H : forallb (fun k => String.eqb (snake_key (snake_to_camel k)) k)
                      allowed_columns = true) by (vm_compute; reflexivity).
  rewrite forallb_forall in H. apply String.eqb_eq, H, Hin.
Qed.

Lemma row_to_camel_items_rekey (items : dict) :
  row_to_camel_items items = rekey snake_to_camel externalize_value items [].
Proof. reflexivity. Qed.

Lemma camel_to_snake_items_rekey (items : dict) :
  camel_to_snake_items items = rekey snake_key (fun v => v) items [].
Proof. reflexivity. Qed.

(** C5, as the spec states it, fails: [row_to_camel_dict] has no irregular
    renames, the row [{address: "1 Main St"}] comes out under the key
    [address] and without a key [location]. *)
Lemma externalize_address_counterexample :
  exists r,
    row_to_camel_dict (Some [("address", PStr "1 Main St")]) = Some r
    /\ dict_mem "address" r = true
    /\ dict_mem "location" r = false.
Proof.
  eexists. split; [reflexivity|]. split; reflexivity.
Qed.

(** C5, amended: for every row with distinct keys that binds [address]
    to a value, [row_to_camel_dict] returns a mapping in which [address]
    is still bound to that value, a text, an integer or [None] as it is
    and an identifier or a date in its text form; and the mapping has a
    key [location] exactly when the row had one. *)
Theorem externalize_keeps_address (row : dict) (v : pyval) :
  NoDup (keys row) ->
  dict_get "address" row = Some v ->
  exists r,
    row_to_camel_dict (Some row) = Some r
    /\ dict_get "address" r
       = Some (match v with
             | PUuid u => PStr (uuid_str u)
             | PDatetime t => PStr (datetime_isoformat t)
             | PDate d => PStr (date_isoformat d)
             | other => other
             end)
    /\ dict_mem "location" r = dict_mem "location" row.
Proof.
  intros Hnd Hget. eexists. split; [reflexivity|].
  rewrite row_to_camel_items_rekey. split.
  - rewrite (rekey_get snake_to_camel externalize_value "address");
      [rewrite Hget; now destruct v | reflexivity | | exact Hnd].
    apply snake_to_camel_inv_plain. reflexivity.
  - unfold dict_mem.
    rewrite (rekey_get snake_to_camel externalize_value "location");
      [| reflexivity | | exact Hnd].
    + now destruct (dict_get "location" row).
    + apply snake_to_camel_inv_plain. reflexivity.
Qed.

Lemma externalize_keeps_address_witness :
  exists r,
    row_to_camel_dict
      (Some [("id", PUuid 7%N); ("address", PStr "1 Main St"); ("logo_url", PNone)])
      = Some r
    /\ dict_get "address" r = Some (PStr "1 Main St")
    /\ dict_mem "location" r
       = dict_mem "location"
           [("id", PUuid 7%N); ("address", PStr "1 Main St"); ("logo_url", PNone)].
Proof.
  apply (externalize_keeps_address
           [("id", PUuid 7%N); ("address", PStr "1 Main St"); ("logo_url", PNone)]
           (PStr "1 Main St")).
  - repeat constructor; simpl; intuition discriminate.
  - reflexivity.
Defined.

(** C6: for every mapping with distinct keys taken from the columns of
    the table, internalizing the externalized mapping gives the mapping
    back: the same keys in the same order, each bound to the value it
    had, a text, an integer or [None] as it is and an identifier or a
    date in its text form; a mapping without identifier and date values
    comes back as it is. *)
Theorem internalize_externalize_fixed_fields (m : dict) :
  NoDup (keys m) ->
  Forall (fun k => In k allowed_columns) (keys m) ->
  camel_to_snake_dict (row_to_camel_dict (Some m))
    = Some (map (fun kv =>
                   (fst kv,
                    match snd kv with
                    | PUuid u => PStr (uuid_str u)
                    | PDatetime t => PStr (datetime_isoformat t)
                    | PDate d => PStr (date_isoformat d)
                    | other => other
                    end)) m)
  /\ (Forall (fun v => is_scalar v = true) (values m) ->
      camel_to_snake_dict (row_to_camel_dict (Some m)) = Some m).
Proof.
  intros Hnd Hall.
  assert (Hcols : forall k, In k (keys m) -> snake_key (snake_to_camel k) = k).
  { intros k Hk. apply roundtrip_allowed_columns.
    rewrite Forall_forall in Hall. now apply Hall. }
  assert (Hmain : camel_to_snake_dict (row_to_camel_dict (Some m))
                  = Some (map (fun kv => (fst kv, externalize_value (snd kv))) m)).
  { simpl. f_equal.
    rewrite row_to_camel_items_rekey, rekey_fresh.
    - simpl. rewrite camel_to_snake_items_rekey, rekey_fresh.
      + simpl. rewrite map_map. apply map_ext_in.
        intros [k v] Hin. simpl. f_equal. apply Hcols.
        apply (in_map fst) in Hin. exact Hin.
      + simpl. unfold keys. rewrite !map_map. simpl.
        rewrite (map_ext_in _ fst).
        * exact Hnd.
        * intros [k v] Hin. simpl. apply Hcols.
          apply (in_map fst) in Hin. exact Hin.
    - simpl. apply NoDup_map_on; [|exact Hnd].
      intros x y Hx Hy Heq.
      rewrite <- (Hcols x Hx), <- (Hcols y Hy). now rewrite Heq. }
  split.
  { rewrite Hmain. f_equal. apply map_ext.
    intros [k v]. simpl. now destruct v. }
  intros Hvals. rewrite Hmain. f_equal.
  rewrite <- (map_id m) at 2. apply map_ext_in.
  intros [k v] Hin. simpl. f_equal.
  unfold values in Hvals. rewrite Forall_forall in Hvals.
  apply (in_map snd) in Hin. specialize (Hvals _ Hin). simpl in Hvals.
  destruct v; try discriminate Hvals; reflexivity.
Qed.

Lemma internalize_externalize_fixed_fields_witness :
  camel_to_snake_dict
    (row_to_camel_dict
       (Some [("id", PUuid 7%N); ("name", PStr "Acme"); ("address", PStr "1 Main St");
              ("employee_estimate", PInt 12); ("logo_url", PNone);
              ("main_phone_cleaned_number", PStr "555")]))
  = Some [("id", PStr "00000000-0000-0000-0000-000000000007"); ("name", PStr "Acme");
          ("address", PStr "1 Main St"); ("employee_estimate", PInt 12);
          ("logo_url", PNone); ("main_phone_cleaned_number", PStr "555")].
Proof.
  apply (internalize_externalize_fixed_fields
           [("id", PUuid 7%N); ("name", PStr "Acme"); ("address", PStr "1 Main St");
            ("employee_estimate", PInt 12); ("logo_url", PNone);
            ("main_phone_cleaned_number", PStr "555")]).
  - repeat constructor; simpl; intuition discriminate.
  - apply forallb_mem_Forall. reflexivity.
Defined.

(** ** Allow-list filter and field sets *)

Lemma filter_allowed_In (allowed : list string) (d : dict) (kv : string * pyval) :
  In kv (filter_allowed allowed d)
  <-> In kv d /\ In (fst kv) allowed /\ snd kv <> PNone.
Proof.
  unfold filter_allowed. rewrite filter_In, andb_true_iff, mem_In, negb_true_iff.
  destruct (snd kv); simpl; intuition congruence.
Qed.

Lemma clean_filter_allowed (allowed : list string) (d : dict) :
  clean allowed (filter_allowed allowed d).
Proof.
  apply Forall_forall. intros kv Hin. apply filter_allowed_In in Hin. tauto.
Qed.

Lemma clean_dict_set (allowed : list string) (k : string) (v : pyval) (d : dict) :
  In k allowed -> v <> PNone -> clean allowed d -> clean allowed (dict_set k v d).
Proof.
  unfold clean. rewrite !Forall_forall. intros Hk Hv Hd kv Hin.
  apply dict_set_In in Hin. destruct Hin as [-> | Hin]; simpl; auto.
Qed.

Lemma clean_keys (allowed : list string) (d : dict) :
  clean allowed d -> Forall (fun k => In k allowed) (keys d).
Proof.
  unfold clean, keys. rewrite !Forall_forall. intros H k Hk.
  apply in_map_iff in Hk. destruct Hk as (kv & <- & Hin). now apply H.
Qed.

Lemma clean_values (allowed : list string) (d : dict) :
  clean allowed d -> Forall (fun v => v <> PNone) (values d).
Proof.
  unfold clean, values. rewrite !Forall_forall. intros H v Hv.
  apply in_map_iff in Hv. destruct Hv as (kv & <- & Hin). now apply H.
Qed.

Lemma clean_column (allowed : list string) (d : dict) (k : string) :
  clean allowed d -> In k (keys d) -> column k d <> PNone.
Proof.
  unfold clean, column. rewrite Forall_forall. intros H Hk.
  destruct (dict_get k d) eqn:E.
  - apply dict_get_In in E. apply (H _ E).
  - apply dict_get_None in E. contradiction.
Qed.

Lemma dict_get_filter_allowed (allowed : list string) (k : string) (v : pyval) (d : dict) :
  In k allowed -> v <> PNone -> dict_get k d = Some v ->
  dict_get k (filter_allowed allowed d) = Some v.
Proof.
  intros Hk Hv. unfold filter_allowed.
  induction d as [|[k' v'] d IH]; simpl; [discriminate|].
  destruct (String.eqb k k') eqn:E.
  - apply String.eqb_eq in E. subst k'. intros [= ->].
    apply mem_In in Hk. rewrite Hk.
    destruct v; try congruence; simpl; now rewrite String.eqb_refl.
  - intros Hget. destruct (mem k' allowed && negb (is_None v')); simpl.
    + rewrite E. now apply IH.
    + now apply IH.
Qed.

Lemma dict_set_NoDup (k : string) (v : pyval) (d : dict) :
  NoDup (keys d) -> NoDup (keys (dict_set k v d)).
Proof.
  induction d as [|[k' v'] d IH]; simpl; intros Hnd.
  - constructor; [tauto | constructor].
  - inversion Hnd as [|? ? Hnotin Hnd']; subst.
    destruct (String.eqb k k') eqn:E; simpl.
    + apply String.eqb_eq in E. subst k'. now constructor.
    + constructor; [|now apply IH].
      intros Hin. apply dict_set_keys in Hin. apply String.eqb_neq in E.
      destruct Hin; [congruence | contradiction].
Qed.

Lemma rekey_NoDup (f : string -> string) (g : pyval -> pyval) (items : dict) :
  forall acc, NoDup (keys acc) -> NoDup (keys (rekey f g items acc)).
Proof.
  unfold rekey. induction items as [|kv items IH]; simpl; intros acc Hnd; [exact Hnd|].
  apply IH, dict_set_NoDup, Hnd.
Qed.

Lemma camel_to_snake_items_NoDup (items : dict) : NoDup (keys (camel_to_snake_items items)).
Proof.
  rewrite camel_to_snake_items_rekey. apply rekey_NoDup. constructor.
Qed.

Lemma filter_allowed_NoDup (allowed : list string) (d : dict) :
  NoDup (keys d) -> NoDup (keys (filter_allowed allowed d)).
Proof.
  unfold filter_allowed. induction d as [|[k v] d IH]; simpl; intros Hnd; [constructor|].
  inversion Hnd as [|? ? Hnotin Hnd']; subst.
  destruct (mem k allowed && negb (is_None v)); simpl; [|now apply IH].
  constructor; [|now apply IH].
  intros Hin. apply Hnotin. unfold keys in *.
  apply in_map_iff in Hin. destruct Hin as (kv & <- & Hin).
  apply filter_In in Hin. apply in_map, Hin.
Qed.

Lemma NoDup_keys_unique (d : dict) (k : string) (v v' : pyval) :
  NoDup (keys d) -> In (k, v) d -> In (k, v') d -> v = v'.
Proof.
  induction d as [|[k1 v1] d IH]; simpl; intros Hnd H1 H2; [contradiction|].
  inversion Hnd as [|? ? Hnotin Hnd']; subst.
  destruct H1 as [H1 | H1], H2 as [H2 | H2].
  - congruence.
  - exfalso. apply Hnotin. injection H1 as -> _. apply (in_map fst) in H2. exact H2.
  - exfalso. apply Hnotin. injection H2 as -> _. apply (in_map fst) in H1. exact H1.
  - now apply IH.
Qed.

(** *** The field set of an INSERT *)

Lemma create_insert_data_clean (new_id : uuid) (now : datetime) (dumped ins : dict) :
  create_insert_data new_id now dumped = Ok ins -> clean allowed_columns ins.
Proof.
  unfold create_insert_data. simpl.
  set (d := filter_allowed allowed_columns _).
  assert (Hd : clean allowed_columns d) by apply clean_filter_allowed.
  destruct (negb (dict_mem "name" d)); [discriminate|].
  assert (Hid : In "id" allowed_columns) by (apply mem_In; reflexivity).
  assert (Hc : In "created_at" allowed_columns) by (apply mem_In; reflexivity).
  assert (Hu : In "updated_at" allowed_columns) by (apply mem_In; reflexivity).
  intros [= <-].
  repeat match goal with
         | |- clean _ (if ?b then _ else _) => destruct b
         | |- clean _ (dict_set _ _ _) => apply clean_dict_set; try assumption; try discriminate
         end; assumption.
Qed.

(** *** The field set of an UPDATE *)

Lemma update_fields_of_Ok (now : datetime) (dumped upd : dict) :
  update_fields_of now dumped = Ok upd ->
  upd = filter_allowed allowed_update_columns
          (dict_set "updated_at" (PDatetime now) (camel_to_snake_items dumped)).
Proof.
  unfold update_fields_of. cbn [camel_to_snake_dict].
  destruct (not_dict (Some (camel_to_snake_items dumped))); [discriminate|].
  match goal with |- (if ?b then _ else _) = _ -> _ => destruct b end;
    [discriminate | now intros [= <-]].
Qed.

Lemma update_fields_of_clean (now : datetime) (dumped upd : dict) :
  update_fields_of now dumped = Ok upd -> clean allowed_update_columns upd.
Proof.
  intros H. rewrite (update_fields_of_Ok _ _ _ H). apply clean_filter_allowed.
Qed.

Lemma update_fields_of_NoDup (now : datetime) (dumped upd : dict) :
  update_fields_of now dumped = Ok upd -> NoDup (keys upd).
Proof.
  intros H. rewrite (update_fields_of_Ok _ _ _ H).
  apply filter_allowed_NoDup, dict_set_NoDup, camel_to_snake_items_NoDup.
Qed.

Lemma update_fields_of_updated_at (now : datetime) (dumped upd : dict) :
  update_fields_of now dumped = Ok upd ->
  dict_get "updated_at" upd = Some (PDatetime now).
Proof.
  intros H. rewrite (update_fields_of_Ok _ _ _ H).
  apply dict_get_filter_allowed.
  - apply mem_In. reflexivity.
  - discriminate.
  - apply dict_get_set_same.
Qed.

Lemma update_fields_of_frame (now : datetime) (dumped upd : dict) :
  update_fields_of now dumped = Ok upd ->
  ~ In "id" (keys upd) /\ ~ In "created_at" (keys upd).
Proof.
  intros H. apply update_fields_of_clean, clean_keys in H.
  rewrite Forall_forall in H.
  split; intros Hin; apply H, mem_In in Hin; discriminate.
Qed.

Lemma update_fields_of_rejects (now : datetime) (dumped : dict) :
  (forall k v, In (k, v) (camel_to_snake_items dumped) -> v <> PNone -> k = "updated_at") ->
  exists detail, update_fields_of now dumped = Raise (HTTPException 400 detail).
Proof.
  intros H. unfold update_fields_of. cbn [camel_to_snake_dict].
  destruct (not_dict (Some (camel_to_snake_items dumped))); [eexists; reflexivity|].
  set (upd := filter_allowed _ _).
  assert (Hall : forallb (fun k => String.eqb k "updated_at") (keys upd) = true).
  { apply forallb_forall. intros k Hk. apply String.eqb_eq.
    unfold keys in Hk. apply in_map_iff in Hk. destruct Hk as ([k' v] & <- & Hin).
    apply filter_allowed_In in Hin. destruct Hin as (Hin & _ & Hv).
    apply dict_set_In in Hin. destruct Hin as [[= -> _] | Hin]; [reflexivity|].
    simpl in *. eapply H; eauto. }
  rewrite Hall, orb_true_r. eexists; reflexivity.
Qed.

(** ** The context managers and the handlers, case by case *)

Lemma get_db_cursor_spec {A : Type} (commit : bool) (body : Conn A) (w : world) :
  get_db_cursor commit body w =
  if configured w then
    match body (mk_connection (committed w) [], w) with
    | (Ok a, cw) =>
        (Ok a, if commit then set_committed (working (fst cw)) (snd cw) else snd cw)
    | (Raise _, cw) => (Raise operation_failed, snd cw)
    end
  else (Raise operation_failed, w).
Proof.
  unfold get_db_cursor, get_db_connection, try_except, bind, configured,
    psycopg2_connect, raise, ret, conn_commit.
  destruct (not_url (postgres_url w)); simpl; [reflexivity|].
  destruct (db_up w); [|reflexivity].
  destruct (body _) as [[a|e] [c w']]; simpl; [destruct commit|]; reflexivity.
Qed.

Lemma get_company_spec (company_id : pyval) (w : world) :
  get_company company_id w =
  if configured w then
    let w' := log_statement SelectCompany [PStr (py_str company_id)] w in
    match select_company (PStr (py_str company_id)) (committed w) with
    | Some row =>
        match Company.model_validate (row_to_camel_dict (Some row)) with
        | Some c => (Ok c, w')
        | None => (Raise operation_failed, w')
        end
    | None => (Raise operation_failed, w')
    end
  else (Raise operation_failed, w).
Proof.
  unfold get_company, try_except. rewrite get_db_cursor_spec.
  destruct (configured w); [|reflexivity].
  unfold bind, cursor_execute, cursor_fetchone, select_company, raise, ret.
  cbn [forallb adaptable andb run_statement fst snd working result_set].
  destruct (map (project select_columns) _) as [|row rows]; [reflexivity|].
  cbn [hd_error result_set fst snd].
  destruct (Company.model_validate _); reflexivity.
Qed.

Lemma get_company_committed (company_id : pyval) (w : world) :
  committed (snd (get_company company_id w)) = committed w.
Proof.
  rewrite get_company_spec.
  destruct (configured w); [|reflexivity]. cbv zeta.
  destruct (select_company _ _); [|reflexivity].
  destruct (Company.model_validate _); reflexivity.
Qed.

Lemma delete_company_spec (company_id : pyval) (w : world) :
  delete_company company_id w =
  (Raise operation_failed,
   if configured w then log_statement DeleteCompany [PStr (py_str company_id)] w else w).
Proof.
  unfold delete_company, try_except. rewrite get_db_cursor_spec.
  destruct (configured w); [|reflexivity].
  unfold bind, cursor_execute, cursor_fetchone, raise, ret.
  cbn [forallb adaptable andb run_statement fst snd working result_set].
  destruct (map returning_id _) as [|row rows] eqn:E; [reflexivity|].
  cbn [result_set fst snd].
  destruct (filter _ _) as [|r0 rs]; [discriminate|].
  injection E as <- _. reflexivity.
Qed.

Lemma dict_get_combine (f : string -> pyval) (k : string) (ks : list string) :
  dict_get k (combine ks (map f ks)) = if mem k ks then Some (f k) else None.
Proof.
  induction ks as [|k' ks IH]; simpl; [reflexivity|].
  destruct (String.eqb k k') eqn:E; simpl; [|exact IH].
  apply String.eqb_eq in E. now subst.
Qed.

Lemma combine_keys_values (d : dict) : combine (keys d) (values d) = d.
Proof.
  induction d as [|[k v] d IH]; simpl; [reflexivity|]. now rewrite IH.
Qed.

Lemma create_insert_data_id (new_id : uuid) (now : datetime) (dumped ins : dict) :
  create_insert_data new_id now dumped = Ok ins ->
  dict_get "id" ins = Some (PUuid new_id).
Proof.
  unfold create_insert_data. cbn [camel_to_snake_dict].
  set (d := filter_allowed allowed_columns _).
  assert (Hid : dict_get "id" d = Some (PUuid new_id)).
  { apply dict_get_filter_allowed; [apply mem_In; reflexivity | discriminate |].
    rewrite !dict_get_set_other by discriminate. apply dict_get_set_same. }
  assert (Hm : dict_mem "id" d = true) by (unfold dict_mem; now rewrite Hid).
  rewrite !Hm. cbn [negb].
  destruct (negb (dict_mem "name" d)); [discriminate|].
  intros [= <-].
  repeat match goal with
         | |- context [if ?b then _ else _] => destruct b
         end;
    rewrite ?dict_get_set_other by discriminate; exact Hid.
Qed.

Lemma forallb_In_false {A : Type} (f : A -> bool) (l : list A) (x : A) :
  In x l -> f x = false -> forallb f l = false.
Proof.
  intros Hin Hf. destruct (forallb f l) eqn:E; [|reflexivity].
  rewrite forallb_forall in E. rewrite (E x Hin) in Hf. discriminate.
Qed.

(** The generated identifier is among the parameters of the INSERT as a
    [uuid.UUID] object, which the driver does not adapt. *)
Lemma insert_parameters_not_adaptable (new_id : uuid) (now : datetime) (dumped ins : dict) :
  create_insert_data new_id now dumped = Ok ins ->
  forallb adaptable (snd (insert_parameters ins)) = false.
Proof.
  intros Hins. pose proof (create_insert_data_id _ _ _ _ Hins) as Hid.
  apply (forallb_In_false adaptable _ (PUuid new_id)); [|reflexivity].
  cbn [insert_parameters snd]. apply in_map_iff. exists "id". split.
  - unfold column. now rewrite Hid.
  - apply dict_get_In in Hid. apply (in_map fst) in Hid. exact Hid.
Qed.

(** No INSERT of [create_company] gets as far as the store. *)
Lemma create_company_dumped_spec (new_id : uuid) (now : datetime) (dumped : dict) (w : world) :
  create_company_dumped new_id now dumped w =
  match create_insert_data new_id now dumped with
  | Raise e => (Raise e, w)
  | Ok _ => (Raise operation_failed, w)
  end.
Proof.
  unfold create_company_dumped.
  destruct (create_insert_data new_id now dumped) as [ins|e] eqn:Hins; [|reflexivity].
  pose proof (insert_parameters_not_adaptable _ _ _ _ Hins) as Hna.
  destruct (insert_parameters ins) as [columns vals]. cbn [snd] in Hna.
  unfold try_except. rewrite get_db_cursor_spec.
  destruct (configured w); [|reflexivity].
  unfold bind, cursor_execute. rewrite Hna. reflexivity.
Qed.

Lemma update_company_dumped_spec (company_id : pyval) (now : datetime) (dumped : dict)
    (w : world) :
  update_company_dumped company_id now dumped w =
  match update_fields_of now dumped with
  | Raise e => (Raise e, w)
  | Ok upd =>
      if configured w then
        let p := PStr (py_str company_id) in
        if forallb adaptable (values upd) then
          let w1 := log_statement (UpdateCompany (keys upd)) (values upd ++ [p])%list w in
          if fits_columns upd then
            match filter (id_matches p) (committed w) with
            | [] => (Raise operation_failed, w1)
            | row :: _ =>
                match get_company (column "id" row) w1 with
                | (Ok c, w2) => (Ok c, set_committed (update_rows p upd (committed w)) w2)
                | (Raise _, w2) => (Raise operation_failed, w2)
                end
            end
          else (Raise operation_failed, w1)
        else (Raise operation_failed, w)
      else (Raise operation_failed, w)
  end.
Proof.
  unfold update_company_dumped.
  destruct (update_fields_of now dumped) as [upd|e] eqn:Hupd; [|reflexivity].
  unfold try_except. rewrite get_db_cursor_spec.
  destruct (configured w); [|reflexivity].
  unfold bind, cursor_execute, cursor_fetchone, raise, ret, lift, getitem.
  rewrite forallb_app. cbn [forallb adaptable]. rewrite !andb_true_r.
  cbv zeta. destruct (forallb adaptable (values upd)); [|reflexivity].
  cbn [run_statement fst snd working result_set].
  assert (Hlen : length (values upd) = length (keys upd))
    by (unfold values, keys; now rewrite !length_map).
  rewrite length_app, Hlen. cbn [length]. rewrite Nat.add_1_r, Nat.eqb_refl.
  rewrite <- Hlen, firstn_app, Nat.sub_diag, firstn_all, firstn_O, app_nil_r.
  rewrite Hlen, combine_keys_values.
  rewrite app_nth2 by lia. rewrite Hlen, Nat.sub_diag. cbn [nth].
  destruct (fits_columns upd); [|reflexivity].
  cbn [result_set fst snd].
  destruct (filter _ (committed w)) as [|row rows]; [reflexivity|].
  cbn [map result_set fst snd returning_id dict_get]. rewrite String.eqb_refl.
  unfold ret. cbn [fst snd working].
  fold (update_rows (PStr (py_str company_id)) upd (committed w)).
  destruct (get_company (column "id" row) _) as [[c|e] w2]; reflexivity.
Qed.

(** ** Rows under an UPDATE *)

Lemma column_dict_set_same (k : string) (v : pyval) (row : dict) :
  column k (dict_set k v row) = v.
Proof. unfold column. now rewrite dict_get_set_same. Qed.

Lemma column_dict_set_other (k k' : string) (v : pyval) (row : dict) :
  k <> k' -> column k' (dict_set k v row) = column k' row.
Proof. intros H. unfold column. now rewrite dict_get_set_other. Qed.

Lemma assign_other (sets : dict) (k : string) :
  ~ In k (keys sets) -> forall row, dict_get k (assign sets row) = dict_get k row.
Proof.
  unfold assign. induction sets as [|[k1 v1] sets IH]; simpl; intros Hn row; [reflexivity|].
  rewrite IH by tauto. apply dict_get_set_other. intros ->. tauto.
Qed.

Lemma assign_bound (sets : dict) (k : string) (v : pyval) :
  In (k, v) sets -> (forall v', In (k, v') sets -> v' = v) ->
  forall row, dict_get k (assign sets row) = Some v.
Proof.
  unfold assign. induction sets as [|[k1 v1] sets IH]; simpl; intros Hin Hall row;
    [contradiction|].
  destruct (in_dec string_dec k (keys sets)) as [Hk | Hk].
  - unfold keys in Hk. apply in_map_iff in Hk. destruct Hk as ([k' v'] & Hk' & Hin').
    simpl in Hk'. subst k'.
    assert (v' = v) by (apply Hall; now right). subst v'.
    apply IH; [exact Hin' | intros; apply Hall; now right].
  - destruct Hin as [[= -> ->] | Hin].
    + pose proof (assign_other sets k Hk) as Ho. unfold assign in Ho.
      rewrite Ho. apply dict_get_set_same.
    + exfalso. apply Hk. apply (in_map fst) in Hin. exact Hin.
Qed.

Lemma assign_keeps_values (sets : dict) (c : string) :
  Forall (fun v => v <> PNone) (values sets) ->
  forall row, column c row <> PNone -> column c (assign sets row) <> PNone.
Proof.
  unfold assign. induction sets as [|[k1 v1] sets IH]; simpl; intros Hv row Hc; [exact Hc|].
  inversion Hv as [|? ? Hv1 Hv']; subst.
  apply IH; [exact Hv'|].
  destruct (string_dec k1 c) as [-> | Hne].
  - now rewrite column_dict_set_same.
  - now rewrite column_dict_set_other.
Qed.

Lemma filter_none_of_existsb {A : Type} (f : A -> bool) (l : list A) :
  existsb f l = false -> filter f l = [].
Proof.
  induction l as [|a l IH]; simpl; [reflexivity|].
  destruct (f a); simpl; [discriminate | exact IH].
Qed.

Lemma select_company_missing (p : pyval) (t : table) :
  existsb (id_matches p) t = false -> select_company p t = None.
Proof.
  intros H. unfold select_company. now rewrite (filter_none_of_existsb _ _ H).
Qed.

(** ** The statements a handler sends *)

Lemma get_company_executed (company_id : pyval) (w : world) :
  executed (snd (get_company company_id w)) =
  (executed w
   ++ if configured w then [(select_query, [PStr (py_str company_id)])] else [])%list.
Proof.
  rewrite get_company_spec.
  destruct (configured w); [|cbn; now rewrite app_nil_r]. cbv zeta.
  destruct (select_company _ _); [|reflexivity].
  destruct (Company.model_validate _); reflexivity.
Qed.

Lemma safe_select (params : list pyval) : safe_entry (select_query, params).
Proof. left. reflexivity. Qed.

Lemma create_insert_data_request (new_id : uuid) (now : datetime)
    (request : CreateCompanyRequest.t) :
  exists ins,
    create_insert_data new_id now (CreateCompanyRequest.model_dump request) = Ok ins.
Proof.
  destruct request as [n i l [|[u|]] [|[r|]] [|[e|]]]; eexists; vm_compute; reflexivity.
Qed.

(** ** Not found, delete and create: what the handlers answer *)

(** C1 fails on the code: when no row has the identifier, [get_company],
    [delete_company] and [update_company] (with a request that passes the
    handler's own checks) all end with the 500 of [get_db_cursor], which
    takes the place of the 404 raised inside the [with] block. *)
Theorem missing_target_yields_500 (u : uuid) (now : datetime)
    (request : UpdateCompanyRequest.t) (upd : dict) (w : world) :
  has_company u (committed w) = false ->
  update_fields_of now (UpdateCompanyRequest.model_dump request) = Ok upd ->
  fst (get_company (PUuid u) w) = Raise (HTTPException 500 "Database operation failed.")
  /\ fst (update_company (PUuid u) now request w)
     = Raise (HTTPException 500 "Database operation failed.")
  /\ fst (delete_company (PUuid u) w)
     = Raise (HTTPException 500 "Database operation failed.").
Proof.
  intros Hmiss Hupd. unfold has_company in Hmiss.
  change (uuid_str u) with (py_str (PUuid u)) in Hmiss.
  split; [|split].
  - rewrite get_company_spec. destruct (configured w); [|reflexivity].
    cbv zeta. now rewrite (select_company_missing _ _ Hmiss).
  - unfold update_company. rewrite update_company_dumped_spec, Hupd.
    destruct (configured w); [|reflexivity]. cbv zeta.
    destruct (forallb adaptable (values upd)); [|reflexivity].
    destruct (fits_columns upd); [|reflexivity].
    now rewrite (filter_none_of_existsb _ _ Hmiss).
  - now rewrite delete_company_spec.
Qed.

Lemma missing_target_yields_500_witness :
  let w := mk_world (Some "postgresql://store") true [] [] in
  let request :=
    UpdateCompanyRequest.mk (Given (Some "Acme")) Unset Unset Unset Unset Unset in
  let now := mk_datetime 2024 5 17 10 30 0 0 in
  fst (get_company (PUuid 1%N) w) = Raise (HTTPException 500 "Database operation failed.")
  /\ fst (update_company (PUuid 1%N) now request w)
     = Raise (HTTPException 500 "Database operation failed.")
  /\ fst (delete_company (PUuid 1%N) w)
     = Raise (HTTPException 500 "Database operation failed.").
Proof.
  intros w request now.
  apply (missing_target_yields_500 1%N now request
           [("name", PStr "Acme"); ("updated_at", PDatetime now)] w);
    reflexivity.
Defined.

(** C2 fails on the code: for a row that is in the table,
    [delete_company] sends the DELETE, then raises inside the [with]
    block ([Response] is not bound), so nothing is committed: the answer
    is a 500 and the row is still in the table. *)
Theorem delete_existing_yields_500 (u : uuid) (w : world) :
  has_company u (committed w) = true ->
  fst (delete_company (PUuid u) w) = Raise (HTTPException 500 "Database operation failed.")
  /\ status (fst (DELETE_company u w)) = 500%Z
  /\ committed (snd (delete_company (PUuid u) w)) = committed w
  /\ has_company u (committed (snd (delete_company (PUuid u) w))) = true.
Proof.
  intros Hhas. unfold DELETE_company, route.
  rewrite delete_company_spec. cbn [fst snd respond operation_failed status].
  assert (Hc : committed (if configured w
                          then log_statement DeleteCompany [PStr (py_str (PUuid u))] w
                          else w) = committed w)
    by (destruct (configured w); reflexivity).
  repeat split; try exact Hc. now rewrite Hc.
Qed.

Lemma delete_existing_yields_500_witness :
  let row := [("id", PUuid 1%N); ("name", PStr "Acme")] in
  let w := mk_world (Some "postgresql://store") true [row] [] in
  fst (delete_company (PUuid 1%N) w) = Raise (HTTPException 500 "Database operation failed.")
  /\ status (fst (DELETE_company 1%N w)) = 500%Z
  /\ committed (snd (delete_company (PUuid 1%N) w)) = committed w
  /\ has_company 1%N (committed (snd (delete_company (PUuid 1%N) w))) = true.
Proof.
  intros row w. apply (delete_existing_yields_500 1%N w). reflexivity.
Defined.

(** Why the [with] block of [delete_company] raises once a row was
    deleted: [Response] is not bound in the module. *)
Lemma Response_unbound : mem "Response" module_globals = false.
Proof. reflexivity. Qed.

(** ** Create with only a name *)

(** C4, as the spec states it, fails: the body [{"name": "Acme"}] does
    not validate against [CreateCompanyRequest], which requires
    [industry] and [location] too; the handler is not called, the answer
    is not a 201 and nothing is sent to the store. *)
Lemma create_name_only_counterexample :
  let w := mk_world (Some "postgresql://store") true [] [] in
  let now := mk_datetime 2024 5 17 10 30 0 0 in
  CreateCompanyRequest.validate [("name", JStr "Acme")] = None
  /\ status (fst (POST_companies 2%N now [("name", JStr "Acme")] w)) <> 201%Z
  /\ snd (POST_companies 2%N now [("name", JStr "Acme")] w) = w.
Proof.
  intros w now. split; [reflexivity|]. split; [discriminate | reflexivity].
Qed.

(** C4, amended: a body with only [name] is rejected by the validation
    of the request, whatever the name, and the store is not touched; a
    body with [name], [industry] and [location] validates, and the field
    set the handler inserts has the generated identifier, the name, the
    industry and the address as supplied, no other optional column, and
    the same instant under [created_at] and [updated_at]. *)
Theorem create_required_fields (new_id : uuid) (now : datetime)
    (n i l : string) (w : world) :
  POST_companies new_id now [("name", JStr n)] w = (unprocessable, w)
  /\ CreateCompanyRequest.validate
       [("name", JStr n); ("industry", JStr i); ("location", JStr l)]
     = Some (CreateCompanyRequest.mk n i l Unset Unset Unset)
  /\ create_insert_data new_id now
       (CreateCompanyRequest.model_dump (CreateCompanyRequest.mk n i l Unset Unset Unset))
     = Ok [("name", PStr n); ("industry", PStr i); ("address", PStr l);
           ("id", PUuid new_id);
           ("created_at", PDatetime now); ("updated_at", PDatetime now)].
Proof.
  split; [reflexivity|]. split; reflexivity.
Qed.

(** ** Allow-list *)


Lemma executed_update (company_id : pyval) (now : datetime) (dumped : dict) (w : world) :
  exists sent,
    executed (snd (update_company_dumped company_id now dumped w))
      = (executed w ++ sent)%list
    /\ Forall (fun e => fst e = select_query
                        \/ exists upd, update_fields_of now dumped = Ok upd
                                       /\ fst e = update_query (keys upd)) sent.
Proof.
  rewrite update_company_dumped_spec.
  destruct (update_fields_of now dumped) as [upd|e] eqn:Hupd.
  2:{ exists []. now rewrite app_nil_r. }
  destruct (configured w) eqn:Hconf.
  2:{ exists []. now rewrite app_nil_r. }
  cbv zeta.
  destruct (forallb adaptable (values upd)).
  2:{ exists []. now rewrite app_nil_r. }
  set (p := PStr (py_str company_id)).
  set (w1 := log_statement (UpdateCompany (keys upd)) (values upd ++ [p])%list w).
  assert (Hu : (fun e : string * list pyval =>
                  fst e = select_query
                  \/ exists upd0, Ok upd = Ok upd0 /\ fst e = update_query (keys upd0))
                 (update_query (keys upd), (values upd ++ [p])%list)).
  { right. exists upd. split; reflexivity. }
  destruct (fits_columns upd).
  2:{ exists [(update_query (keys upd), (values upd ++ [p])%list)].
      split; [reflexivity|]. constructor; [exact Hu | constructor]. }
  destruct (filter (id_matches p) (committed w)) as [|row rows].
  - exists [(update_query (keys upd), (values upd ++ [p])%list)].
    split; [reflexivity|]. constructor; [exact Hu | constructor].
  - pose proof (get_company_executed (column "id" row) w1) as Hex.
    change (configured w1) with (configured w) in Hex. rewrite Hconf in Hex.
    exists [(update_query (keys upd), (values upd ++ [p])%list);
            (select_query, [PStr (py_str (column "id" row))])].
    split.
    + destruct (get_company (column "id" row) w1) as [[c|e] w2];
        cbn [snd executed set_committed] in *; rewrite Hex;
        unfold w1; cbn [executed log_statement sql_text]; now rewrite <- app_assoc.
    + constructor; [exact Hu | constructor; [now left | constructor]].
Qed.



(** ** Updates *)

(** C8: when every item of the internalized request that has a value is
    under [updated_at] (the empty body, and bodies whose fields are all
    null), [update_company] raises a 400 and the store is as it was: no
    connection was opened and no statement sent. *)
Theorem update_without_substance_rejected (u : uuid) (now : datetime)
    (request : UpdateCompanyRequest.t) (w : world) :
  (forall k v,
      In (k, v) (camel_to_snake_items (UpdateCompanyRequest.model_dump request)) ->
      v <> PNone -> k = "updated_at") ->
  (exists detail,
      update_company (PUuid u) now request w = (Raise (HTTPException 400 detail), w))
  /\ PUT_company u now [] w
     = (mk_http_response 400 (Detail "No update data provided."), w).
Proof.
  intros H. split; [|reflexivity].
  destruct (update_fields_of_rejects now _ H) as (detail & Hrej).
  exists detail. unfold update_company.
  now rewrite update_company_dumped_spec, Hrej.
Qed.

Lemma update_without_substance_rejected_witness :
  let request := UpdateCompanyRequest.mk (Given None) Unset Unset Unset (Given None) Unset in
  let now := mk_datetime 2024 5 17 10 30 0 0 in
  let w := mk_world (Some "postgresql://store") true
                    [[("id", PUuid 1%N); ("name", PStr "Acme")]] [] in
  (exists detail,
      update_company (PUuid 1%N) now request w = (Raise (HTTPException 400 detail), w))
  /\ PUT_company 1%N now [] w
     = (mk_http_response 400 (Detail "No update data provided."), w).
Proof.
  intros request now w.
  apply (update_without_substance_rejected 1%N now request w).
  intros k v Hin Hv. simpl in Hin.
  destruct Hin as [[= <- <-] | [[= <- <-] | []]]; congruence.
Defined.

Lemma update_company_dumped_committed (company_id : pyval) (now : datetime)
    (dumped : dict) (w : world) :
  let w' := snd (update_company_dumped company_id now dumped w) in
  committed w' = committed w
  \/ exists upd c,
       update_fields_of now dumped = Ok upd
       /\ fst (update_company_dumped company_id now dumped w) = Ok c
       /\ committed w' = update_rows (PStr (py_str company_id)) upd (committed w).
Proof.
  cbv zeta. rewrite update_company_dumped_spec.
  destruct (update_fields_of now dumped) as [upd|e]; [|now left].
  destruct (configured w); [|now left]. cbv zeta.
  destruct (forallb adaptable (values upd)); [|now left].
  destruct (fits_columns upd); [|now left].
  destruct (filter _ (committed w)) as [|row rows]; [now left|].
  pose proof (get_company_committed (column "id" row)
                (log_statement (UpdateCompany (keys upd))
                   (values upd ++ [PStr (py_str company_id)])%list w)) as Hc.
  destruct (get_company (column "id" row) _) as [[c|e] w2]; cbn [fst snd] in *.
  - right. exists upd, c. repeat split.
  - left. exact Hc.
Qed.

Lemma update_company_dumped_Ok (company_id : pyval) (now : datetime)
    (dumped : dict) (w : world) (c : Company.t) :
  fst (update_company_dumped company_id now dumped w) = Ok c ->
  exists upd,
    update_fields_of now dumped = Ok upd
    /\ committed (snd (update_company_dumped company_id now dumped w))
       = update_rows (PStr (py_str company_id)) upd (committed w).
Proof.
  rewrite update_company_dumped_spec.
  destruct (update_fields_of now dumped) as [upd|e]; [|discriminate].
  destruct (configured w); [|discriminate]. cbv zeta.
  destruct (forallb adaptable (values upd)); [|discriminate].
  destruct (fits_columns upd); [|discriminate].
  destruct (filter _ (committed w)) as [|row rows]; [discriminate|].
  destruct (get_company (column "id" row) _) as [[c'|e] w2]; cbn [fst snd];
    [|discriminate].
  intros _. exists upd. split; reflexivity.
Qed.

Lemma Forall2_update_rows (R : dict -> dict -> Prop) (p : pyval) (sets : dict) (t : table) :
  (forall row, id_matches p row = false -> R row row) ->
  (forall row, id_matches p row = true -> R row (assign sets row)) ->
  Forall2 R t (update_rows p sets t).
Proof.
  intros Hrefl Hset. unfold update_rows.
  induction t as [|row t IH]; simpl; constructor; [|exact IH].
  destruct (id_matches p row) eqn:E; auto.
Qed.

Lemma Forall2_same {A : Type} (R : A -> A -> Prop) (l : list A) :
  (forall a, R a a) -> Forall2 R l l.
Proof. intros H. induction l; constructor; auto. Qed.

(** C9: the field set of an UPDATE never has [id] or [created_at] and
    always binds [updated_at] to the current time; the statements the
    handler sends are built from that field set; whatever the request,
    every row of the table keeps its identifier and its [created_at];
    and when the handler returns, the rows with the target identifier
    have the current time under [updated_at]. *)
Theorem update_frame (company_id : pyval) (now : datetime) (dumped : dict) (w : world) :
  let w' := snd (update_company_dumped company_id now dumped w) in
  Forall2 (fun old new => column "id" new = column "id" old
                          /\ column "created_at" new = column "created_at" old)
          (committed w) (committed w')
  /\ (forall upd, update_fields_of now dumped = Ok upd ->
        ~ In "id" (keys upd) /\ ~ In "created_at" (keys upd)
        /\ dict_get "updated_at" upd = Some (PDatetime now))
  /\ (exists sent,
        executed w' = (executed w ++ sent)%list
        /\ Forall (fun e => fst e = select_query
                            \/ exists upd, update_fields_of now dumped = Ok upd
                                           /\ fst e = update_query (keys upd)) sent)
  /\ (forall c, fst (update_company_dumped company_id now dumped w) = Ok c ->
        Forall2 (fun old new =>
                   id_matches (PStr (py_str company_id)) old = true ->
                   column "updated_at" new = PDatetime now)
                (committed w) (committed w')).
Proof.
  cbv zeta. split; [|split; [|split]].
  - destruct (update_company_dumped_committed company_id now dumped w)
      as [-> | (upd & c & Hupd & _ & ->)].
    + apply Forall2_same. tauto.
    + destruct (update_fields_of_frame _ _ _ Hupd) as [Hid Hcr].
      apply Forall2_update_rows; [tauto|].
      intros row _. unfold column.
      now rewrite (assign_other upd "id" Hid), (assign_other upd "created_at" Hcr).
  - intros upd Hupd. destruct (update_fields_of_frame _ _ _ Hupd).
    repeat split; try assumption. eapply update_fields_of_updated_at; eauto.
  - apply executed_update.
  - intros c Hok.
    destruct (update_company_dumped_Ok _ _ _ _ _ Hok) as (upd & Hupd & ->).
    apply Forall2_update_rows; [congruence | intros row _ _].
    unfold column.
    rewrite (assign_bound upd "updated_at" (PDatetime now)); [reflexivity| |].
    + apply dict_get_In. eapply update_fields_of_updated_at; eauto.
    + intros v' Hin. eapply NoDup_keys_unique.
      * eapply update_fields_of_NoDup; eauto.
      * exact Hin.
      * apply dict_get_In. eapply update_fields_of_updated_at; eauto.
Qed.

Lemma update_frame_witness :
  let now := mk_datetime 2024 5 17 10 30 0 0 in
  let t0 := mk_datetime 2023 1 2 3 4 5 0 in
  let row := [("id", PUuid 1%N); ("name", PStr "Acme");
              ("created_at", PDatetime t0); ("updated_at", PDatetime t0)] in
  let w := mk_world (Some "postgresql://store") true [row] [] in
  let dumped := [("name", PStr "Bolt"); ("location", PStr "2 Side St")] in
  let w' := snd (update_company_dumped (PUuid 1%N) now dumped w) in
  (~ In "id" (keys [("name", PStr "Bolt"); ("address", PStr "2 Side St");
                    ("updated_at", PDatetime now)])
   /\ ~ In "created_at" (keys [("name", PStr "Bolt"); ("address", PStr "2 Side St");
                               ("updated_at", PDatetime now)])
   /\ dict_get "updated_at" [("name", PStr "Bolt"); ("address", PStr "2 Side St");
                             ("updated_at", PDatetime now)] = Some (PDatetime now))
  /\ Forall2 (fun old new =>
                id_matches (PStr (py_str (PUuid 1%N))) old = true ->
                column "updated_at" new = PDatetime now)
             (committed w) (committed w').
Proof.
  intros now t0 row w dumped w'.
  pose proof (update_frame (PUuid 1%N) now dumped w) as (_ & Hset & _ & Hrows).
  split.
  - apply Hset. reflexivity.
  - eapply Hrows. reflexivity.
Defined.

(** ** Null fields *)

Lemma create_insert_data_keys (new_id : uuid) (now : datetime) (dumped ins : dict) :
  create_insert_data new_id now dumped = Ok ins ->
  forall k, In k (keys ins) ->
    In k ["id"; "created_at"; "updated_at"]
    \/ exists v, v <> PNone /\ In (k, v) (camel_to_snake_items dumped).
Proof.
  unfold create_insert_data. cbn [camel_to_snake_dict].
  set (d := filter_allowed allowed_columns _).
  assert (Hd : forall k, In k (keys d) ->
                 In k ["id"; "created_at"; "updated_at"]
                 \/ exists v, v <> PNone /\ In (k, v) (camel_to_snake_items dumped)).
  { intros k Hk. unfold keys in Hk. apply in_map_iff in Hk.
    destruct Hk as ([k' v] & Hk' & Hin). simpl in Hk'. subst k'.
    apply filter_allowed_In in Hin. destruct Hin as (Hin & _ & Hv). simpl in Hv.
    apply dict_set_In in Hin. destruct Hin as [[= -> _] | Hin]; [simpl; tauto|].
    apply dict_set_In in Hin. destruct Hin as [[= -> _] | Hin]; [simpl; tauto|].
    apply dict_set_In in Hin. destruct Hin as [[= -> _] | Hin]; [simpl; tauto|].
    right. eauto. }
  destruct (negb (dict_mem "name" d)); [discriminate|].
  intros [= <-] k.
  repeat match goal with
         | |- context [if ?b then _ else _] => destruct b
         end;
    rewrite ?dict_set_keys; intros Hk;
    repeat match goal with
           | H : _ \/ _ |- _ => destruct H as [-> | H]
           end; try (left; simpl; tauto); auto.
Qed.

Lemma null_item_dropped (d : dict) (k : string) (v : pyval) :
  NoDup (keys d) -> dict_get k d = Some PNone -> In (k, v) d -> v = PNone.
Proof.
  intros Hnd Hget Hin. apply dict_get_In in Hget.
  eapply NoDup_keys_unique; eauto.
Qed.

(** C10: the values handed to an INSERT or an UPDATE are never [None]; a
    field that the internalized request gives as [None] is in neither
    field set (the columns the handlers force apart); and under any
    update request a column of any row that holds a value still holds a
    value afterwards. *)
Theorem null_fields_dropped (new_id : uuid) (now : datetime) (company_id : pyval)
    (dumped : dict) (w : world) :
  let w' := snd (update_company_dumped company_id now dumped w) in
  (forall ins, create_insert_data new_id now dumped = Ok ins ->
      Forall (fun v => v <> PNone) (map (fun col => column col ins) (keys ins))
      /\ forall k, dict_get k (camel_to_snake_items dumped) = Some PNone ->
                   ~ In k ["id"; "created_at"; "updated_at"] -> ~ In k (keys ins))
  /\ (forall upd, update_fields_of now dumped = Ok upd ->
      Forall (fun v => v <> PNone) (values upd)
      /\ forall k, dict_get k (camel_to_snake_items dumped) = Some PNone ->
                   k <> "updated_at" -> ~ In k (keys upd))
  /\ Forall2 (fun old new => forall c, column c old <> PNone -> column c new <> PNone)
             (committed w) (committed w').
Proof.
  cbv zeta. split; [|split].
  - intros ins Hins. pose proof (create_insert_data_clean _ _ _ _ Hins) as Hclean.
    split.
    + apply Forall_forall. intros v Hv. apply in_map_iff in Hv.
      destruct Hv as (col & <- & Hcol). eapply clean_column; eauto.
    + intros k Hnull Hforced Hk.
      destruct (create_insert_data_keys _ _ _ _ Hins k Hk) as [Hf | (v & Hv & Hin)];
        [contradiction|].
      apply Hv. eapply null_item_dropped; eauto. apply camel_to_snake_items_NoDup.
  - intros upd Hupd. split; [eapply clean_values, update_fields_of_clean; eauto|].
    intros k Hnull Hne Hk.
    rewrite (update_fields_of_Ok _ _ _ Hupd) in Hk.
    unfold keys in Hk. apply in_map_iff in Hk.
    destruct Hk as ([k' v] & Hk' & Hin). simpl in Hk'. subst k'.
    apply filter_allowed_In in Hin. destruct Hin as (Hin & _ & Hv). simpl in Hv.
    apply dict_set_In in Hin. destruct Hin as [[= -> _] | Hin]; [congruence|].
    apply Hv. eapply null_item_dropped; eauto. apply camel_to_snake_items_NoDup.
  - destruct (update_company_dumped_committed company_id now dumped w)
      as [-> | (upd & c & Hupd & _ & ->)].
    + apply Forall2_same. auto.
    + apply Forall2_update_rows; [auto|].
      intros row _ c0. apply assign_keeps_values.
      eapply clean_values, update_fields_of_clean; eauto.
Qed.

Lemma null_fields_dropped_witness :
  let now := mk_datetime 2024 5 17 10 30 0 0 in
  let row := [("id", PUuid 1%N); ("name", PStr "Acme"); ("industry", PStr "Tools")] in
  let w := mk_world (Some "postgresql://store") true [row] [] in
  let dumped := [("name", PStr "Bolt"); ("industry", PNone)] in
  let w' := snd (update_company_dumped (PUuid 1%N) now dumped w) in
  (Forall (fun v => v <> PNone)
          (values [("name", PStr "Bolt"); ("updated_at", PDatetime now)])
   /\ ~ In "industry" (keys [("name", PStr "Bolt"); ("updated_at", PDatetime now)]))
  /\ Forall2 (fun old new => forall c, column c old <> PNone -> column c new <> PNone)
             (committed w) (committed w').
Proof.
  intros now row w dumped w'.
  pose proof (null_fields_dropped 2%N now (PUuid 1%N) dumped w) as (_ & Hupd & Hrows).
  split; [|exact Hrows].
  destruct (Hupd [("name", PStr "Bolt"); ("updated_at", PDatetime now)] eq_refl)
    as [Hvals Hdrop].
  split; [exact Hvals|].
  apply Hdrop; [reflexivity | discriminate].
Defined.

(** * Further properties of the code *)

(** ** Keys through both converters *)

Lemma lower_upper_char (d : ascii) :
  is_lower d = true -> lower_char (upper_char d) = d /\ is_upper (upper_char d) = true.
Proof.
  destruct d as [[] [] [] [] [] [] [] []]; vm_compute; intros H;
    try discriminate H; split; reflexivity.
Qed.

Lemma upper_lower_char (c : ascii) :
  is_upper c = true -> upper_char (lower_char c) = c /\ is_lower (lower_char c) = true.
Proof.
  destruct c as [[] [] [] [] [] [] [] []]; vm_compute; intros H;
    try discriminate H; split; reflexivity.
Qed.

Lemma snake_char_lower (c : ascii) :
  snake_char c = true -> is_upper c = false /\ lower_char c = c.
Proof.
  destruct c as [[] [] [] [] [] [] [] []]; vm_compute; intros H;
    try discriminate H; split; reflexivity.
Qed.

Lemma snake_char_cases (c : ascii) :
  snake_char c = true -> is_lower c = true \/ c = "_"%char.
Proof.
  unfold snake_char. rewrite orb_true_iff, Ascii.eqb_eq. tauto.
Qed.

Lemma not_upper_lower_char (c : ascii) : is_upper c = false -> lower_char c = c.
Proof. unfold lower_char. now intros ->. Qed.

Lemma camel_char_lower (c : ascii) :
  camel_char c = true -> is_upper c = false ->
  lower_char c = c /\ Ascii.eqb c "_" = false.
Proof.
  destruct c as [[] [] [] [] [] [] [] []]; vm_compute; intros H1 H2;
    try discriminate H1; try discriminate H2; split; reflexivity.
Qed.

Lemma snake_to_camel_step (c d : ascii) (rest : string) :
  snake_to_camel (String c (String d rest)) =
  if Ascii.eqb c "_" && (is_lower d || is_digit d)
  then String (upper_char d) (snake_to_camel rest)
  else String c (snake_to_camel (String d rest)).
Proof. reflexivity. Qed.

Lemma snake_to_camel_cons (c : ascii) (s : string) :
  Ascii.eqb c "_" = false -> snake_to_camel (String c s) = String c (snake_to_camel s).
Proof.
  intros Hc. destruct s as [|d s']; [reflexivity|].
  rewrite snake_to_camel_step. now rewrite Hc.
Qed.

(** After [snake_to_camel], putting the underscores back and lowering
    gives a key of lowercase letters and underscores back. *)
Lemma snake_tail_roundtrip (n : nat) :
  forall s, String.length s <= n -> all_chars snake_char s = true ->
            lower (underscore_uppers (snake_to_camel s)) = s.
Proof.
  induction n as [|n IH]; intros s Hlen Hs.
  - destruct s; [reflexivity | simpl in Hlen; lia].
  - destruct s as [|c [|d rest]]; [reflexivity | |].
    + simpl in Hs. rewrite andb_true_r in Hs.
      destruct (snake_char_lower c Hs) as [Hu Hl].
      simpl. rewrite Hu. simpl. now rewrite Hl.
    + simpl in Hlen.
      change (all_chars snake_char (String c (String d rest)))
        with (snake_char c && all_chars snake_char (String d rest)) in Hs.
      apply andb_true_iff in Hs. destruct Hs as [Hc Hrest].
      destruct (snake_char_lower c Hc) as [Hu Hl].
      rewrite snake_to_camel_step.
      destruct (Ascii.eqb c "_" && (is_lower d || is_digit d)) eqn:E.
      * apply andb_true_iff in E. destruct E as [Ec Ed].
        apply Ascii.eqb_eq in Ec. subst c.
        assert (Hd : is_lower d = true).
        { simpl in Hrest. apply andb_true_iff in Hrest. destruct Hrest as [Hd _].
          destruct (snake_char_cases d Hd) as [H | ->]; [exact H|].
          vm_compute in Ed. discriminate. }
        destruct (lower_upper_char d Hd) as [Hlu Hup].
        cbn [underscore_uppers]. rewrite Hup. cbn [lower]. rewrite Hlu.
        change (lower_char "_") with "_"%char.
        f_equal. f_equal. apply IH; [lia|].
        simpl in Hrest. apply andb_true_iff in Hrest. tauto.
      * cbn [underscore_uppers]. rewrite Hu. cbn [lower]. rewrite Hl.
        f_equal. apply IH; [simpl; lia | exact Hrest].
Qed.

Lemma snake_key_no_rename (k : string) :
  String.eqb k "location" = false -> String.eqb k "employees" = false ->
  snake_key k = lower (sub_boundaries k).
Proof. unfold snake_key. now intros -> ->. Qed.

Lemma snake_ident_roundtrip (k : string) :
  snake_ident k = true -> lower (sub_boundaries (snake_to_camel k)) = k.
Proof.
  destruct k as [|c s]; [reflexivity|].
  unfold snake_ident. rewrite andb_true_iff. intros [Hc Hall].
  change (all_chars snake_char (String c s))
    with (snake_char c && all_chars snake_char s) in Hall.
  apply andb_true_iff in Hall. destruct Hall as [Hsc Hs].
  destruct (snake_char_lower c Hsc) as [Hu Hl].
  assert (Hne : Ascii.eqb c "_" = false).
  { destruct (Ascii.eqb c "_") eqn:E; [|reflexivity].
    apply Ascii.eqb_eq in E. subst c. vm_compute in Hc. discriminate. }
  rewrite (snake_to_camel_cons c s Hne).
  cbn [sub_boundaries lower]. rewrite Hl. f_equal.
  apply (snake_tail_roundtrip (String.length s)); [lia | exact Hs].
Qed.

Lemma snake_ident_plain (k : string) : snake_ident k = true -> plain k = true.
Proof.
  assert (H : forall s, all_chars snake_char s = true -> plain s = true).
  { induction s as [|c s IH]; simpl; [reflexivity|].
    rewrite !andb_true_iff. intros [Hc Hs]. split; [|now apply IH].
    revert Hc. destruct c as [[] [] [] [] [] [] [] []]; vm_compute; congruence. }
  destruct k as [|c s]; [reflexivity|].
  unfold snake_ident. rewrite andb_true_iff. intros [_ Hall]. now apply H.
Qed.

(** What [snake_to_camel] leaves of a key of lowercase letters and
    underscores is, for [camel_to_snake_dict], the key itself, but for
    the two keys it renames. *)
Lemma snake_key_snake_to_camel (k : string) :
  snake_ident k = true ->
  snake_key (snake_to_camel k) =
  if String.eqb k "location" then "address"
  else if String.eqb k "employees" then "employee_estimate"
  else k.
Proof.
  intros Hk.
  destruct (String.eqb k "location") eqn:E1;
    [apply String.eqb_eq in E1; subst; reflexivity|].
  destruct (String.eqb k "employees") eqn:E2;
    [apply String.eqb_eq in E2; subst; reflexivity|].
  rewrite snake_key_no_rename.
  - now apply snake_ident_roundtrip.
  - destruct (String.eqb (snake_to_camel k) "location") eqn:E; [|reflexivity].
    apply String.eqb_eq in E.
    apply (snake_to_camel_inv_plain "location" eq_refl) in E.
    subst k. discriminate.
  - destruct (String.eqb (snake_to_camel k) "employees") eqn:E; [|reflexivity].
    apply String.eqb_eq in E.
    apply (snake_to_camel_inv_plain "employees" eq_refl) in E.
    subst k. discriminate.
Qed.

Lemma camel_tail_roundtrip (s : string) :
  all_chars camel_char s = true ->
  snake_to_camel (lower (underscore_uppers s)) = s.
Proof.
  induction s as [|c s IH]; [reflexivity|].
  simpl. rewrite andb_true_iff. intros [Hc Hs].
  destruct (is_upper c) eqn:Hu.
  - destruct (upper_lower_char c Hu) as [Hul Hlow].
    cbn [lower]. change (lower_char "_") with "_"%char.
    rewrite snake_to_camel_step, Ascii.eqb_refl, Hlow. cbn [andb orb].
    rewrite Hul. f_equal. now apply IH.
  - destruct (camel_char_lower c Hc Hu) as [Hl Hne].
    cbn [lower]. rewrite Hl, (snake_to_camel_cons c _ Hne).
    f_equal. now apply IH.
Qed.

Lemma camel_ident_roundtrip (k : string) :
  camel_ident k = true -> snake_to_camel (lower (sub_boundaries k)) = k.
Proof.
  destruct k as [|c s]; [reflexivity|].
  unfold camel_ident. rewrite andb_true_iff, negb_true_iff. intros [Hu Hall].
  simpl in Hall. apply andb_true_iff in Hall. destruct Hall as [Hc Hs].
  destruct (camel_char_lower c Hc Hu) as [Hl Hne].
  cbn [sub_boundaries lower]. rewrite Hl, (snake_to_camel_cons c _ Hne).
  f_equal. now apply camel_tail_roundtrip.
Qed.

Section RekeyTwice.

Variable f1 f2 : string -> string.
Variable g1 g2 : pyval -> pyval.

(** Two loops in a row, when the second key function undoes the first
    on the keys at hand. *)
Lemma rekey_compose (m : dict) :
  NoDup (keys m) ->
  (forall k, In k (keys m) -> f2 (f1 k) = k) ->
  rekey f2 g2 (rekey f1 g1 m []) [] = map (fun kv => (fst kv, g2 (g1 (snd kv)))) m.
Proof.
  intros Hnd Hinv.
  rewrite (rekey_fresh f1 g1 m []).
  - cbn [app]. rewrite rekey_fresh.
    + cbn [app]. rewrite map_map. apply map_ext_in.
      intros [k v] Hin. cbn [fst snd]. f_equal. apply Hinv.
      apply (in_map fst) in Hin. exact Hin.
    + cbn [keys map app]. unfold keys. rewrite !map_map. cbn [fst].
      rewrite (map_ext_in _ fst); [exact Hnd|].
      intros [k v] Hin. cbn [fst]. apply Hinv.
      apply (in_map fst) in Hin. exact Hin.
  - cbn [keys map app]. apply NoDup_map_on; [|exact Hnd].
    intros x y Hx Hy Heq. rewrite <- (Hinv x Hx), <- (Hinv y Hy). now rewrite Heq.
Qed.

End RekeyTwice.

Section RekeyFacts.

Variable f : string -> string.
Variable g : pyval -> pyval.

Lemma rekey_In (items : dict) :
  forall acc kv,
    In kv (rekey f g items acc) ->
    In kv acc \/ exists kv0, In kv0 items /\ kv = (f (fst kv0), g (snd kv0)).
Proof.
  unfold rekey. induction items as [|[k v] items IH]; simpl; intros acc kv Hin; [now left|].
  apply IH in Hin. destruct Hin as [Hin | (kv0 & Hin0 & ->)].
  - apply dict_set_In in Hin. destruct Hin as [-> | Hin]; [|now left].
    right. exists (k, v). split; [now left | reflexivity].
  - right. exists kv0. split; [now right | reflexivity].
Qed.

Lemma rekey_keys (items : dict) :
  forall acc k',
    In k' (keys (rekey f g items acc)) <-> In k' (keys acc) \/ In k' (map f (keys items)).
Proof.
  unfold rekey. induction items as [|[k v] items IH]; simpl; intros acc k'; [tauto|].
  rewrite IH, dict_set_keys. intuition.
Qed.

(** The value a loop leaves under [k1] when only the source key [k0] is
    sent there. *)
Lemma rekey_get_via (k0 k1 : string) (items : dict) :
  f k0 = k1 ->
  (forall k, In k (keys items) -> f k = k1 -> k = k0) ->
  NoDup (keys items) ->
  forall acc,
    dict_get k1 (rekey f g items acc) =
    match dict_get k0 items with
    | Some v => Some (g v)
    | None => dict_get k1 acc
    end.
Proof.
  intros Hk0. unfold rekey.
  induction items as [|[k v] items IH]; simpl; intros Hinv Hnd acc; [reflexivity|].
  inversion Hnd as [|? ? Hnotin Hnd']; subst.
  rewrite IH; [|intros; apply Hinv; auto | exact Hnd'].
  destruct (String.eqb k0 k) eqn:E.
  - apply String.eqb_eq in E. subst k.
    apply dict_get_None in Hnotin. rewrite Hnotin. apply dict_get_set_same.
  - apply String.eqb_neq in E.
    destruct (dict_get k0 items); [reflexivity|].
    apply dict_get_set_other. intros Heq. apply E. symmetry. apply Hinv; auto.
Qed.

End RekeyFacts.

(** X1: a row whose keys are distinct, made of lowercase letters and
    underscores, start with a letter and are neither [location] nor
    [employees] comes back from [row_to_camel_dict] followed by
    [camel_to_snake_dict] with the same keys in the same order, each
    bound to the value it had: a text, an integer or [None] as it is, an
    identifier or a date in its text form. *)
Theorem roundtrip_snake_keys (m : dict) :
  NoDup (keys m) ->
  Forall (fun k => snake_ident k = true /\ k <> "location" /\ k <> "employees") (keys m) ->
  camel_to_snake_dict (row_to_camel_dict (Some m))
    = Some (map (fun kv =>
                   (fst kv,
                    match snd kv with
                    | PUuid u => PStr (uuid_str u)
                    | PDatetime t => PStr (datetime_isoformat t)
                    | PDate d => PStr (date_isoformat d)
                    | other => other
                    end)) m).
Proof.
  intros Hnd Hall. cbn [row_to_camel_dict camel_to_snake_dict]. f_equal.
  rewrite row_to_camel_items_rekey, camel_to_snake_items_rekey.
  rewrite (rekey_compose snake_to_camel snake_key externalize_value (fun v => v) m Hnd).
  - apply map_ext. intros [k v]. cbn [fst snd]. now destruct v.
  - intros k Hk. rewrite Forall_forall in Hall.
    destruct (Hall k Hk) as (Hid & Hl & He).
    rewrite (snake_key_snake_to_camel k Hid).
    apply String.eqb_neq in Hl, He. now rewrite Hl, He.
Qed.

Lemma roundtrip_snake_keys_witness :
  camel_to_snake_dict
    (row_to_camel_dict
       (Some [("id", PUuid 7%N); ("tax_id", PStr "X-1"); ("updated_at", PNone);
              ("x", PInt 3)]))
  = Some [("id", PStr "00000000-0000-0000-0000-000000000007"); ("tax_id", PStr "X-1");
          ("updated_at", PNone); ("x", PInt 3)].
Proof.
  apply (roundtrip_snake_keys
           [("id", PUuid 7%N); ("tax_id", PStr "X-1"); ("updated_at", PNone);
            ("x", PInt 3)]).
  - repeat constructor; simpl; intuition discriminate.
  - repeat constructor; discriminate.
Defined.

(** X2: a request dictionary whose keys are distinct, made of letters
    and digits, do not start with an upper-case letter and are neither
    [location] nor [employees] comes back from [camel_to_snake_dict]
    followed by [row_to_camel_dict] with the same keys in the same order;
    the two irregular keys do not: they come back as [address] and
    [employeeEstimate]. *)
Theorem roundtrip_camel_keys (d : dict) (v : pyval) :
  NoDup (keys d) ->
  Forall (fun k => camel_ident k = true /\ k <> "location" /\ k <> "employees") (keys d) ->
  row_to_camel_dict (camel_to_snake_dict (Some d))
    = Some (map (fun kv => (fst kv, externalize_value (snd kv))) d)
  /\ row_to_camel_dict (camel_to_snake_dict (Some [("location", v)]))
     = Some [("address", externalize_value v)]
  /\ row_to_camel_dict (camel_to_snake_dict (Some [("employees", v)]))
     = Some [("employeeEstimate", externalize_value v)].
Proof.
  intros Hnd Hall. split; [|split; reflexivity].
  cbn [row_to_camel_dict camel_to_snake_dict]. f_equal.
  rewrite row_to_camel_items_rekey, camel_to_snake_items_rekey.
  apply (rekey_compose snake_key snake_to_camel (fun v => v) externalize_value d Hnd).
  intros k Hk. rewrite Forall_forall in Hall.
  destruct (Hall k Hk) as (Hid & Hl & He).
  apply String.eqb_neq in Hl, He.
  rewrite (snake_key_no_rename k Hl He). now apply camel_ident_roundtrip.
Qed.

Lemma roundtrip_camel_keys_witness :
  let d := [("name", PStr "Acme"); ("logoUrl", PNone); ("line2", PStr "b");
            ("angelListProfileUrl", PStr "u")] in
  row_to_camel_dict (camel_to_snake_dict (Some d))
    = Some (map (fun kv => (fst kv, externalize_value (snd kv))) d).
Proof.
  intro d. apply (roundtrip_camel_keys d PNone).
  - repeat constructor; simpl; intuition discriminate.
  - repeat constructor; discriminate.
Defined.

(** X3: whatever the row, [row_to_camel_dict] returns a dictionary with
    distinct keys, whose keys are exactly the camel-cased keys of the
    row, and in which no value is a UUID, datetime or date object. *)
Theorem externalized_row_shape (row : dict) :
  exists r,
    row_to_camel_dict (Some row) = Some r
    /\ NoDup (keys r)
    /\ (forall k', In k' (keys r) <-> In k' (map snake_to_camel (keys row)))
    /\ Forall (fun v => is_scalar v = true) (values r).
Proof.
  exists (row_to_camel_items row). split; [reflexivity|].
  rewrite row_to_camel_items_rekey. split; [|split].
  - apply rekey_NoDup. constructor.
  - intros k'. rewrite rekey_keys. simpl. tauto.
  - unfold values. apply Forall_forall. intros v Hv.
    apply in_map_iff in Hv. destruct Hv as ([k' v'] & <- & Hin).
    apply rekey_In in Hin. destruct Hin as [[] | ([k0 v0] & _ & [= _ ->])].
    simpl. now destruct v0.
Qed.

(** X4: when [location] (or [employees]) is the only key of a request
    dictionary that [camel_to_snake_dict] sends to [address] (or
    [employee_estimate]), the result binds that column to the value the
    request gave. When the request has both [location] and [address],
    one value is lost: the later item wins. *)
Theorem internalize_irregular_rename (d : dict) (external internal : string) (v a b : pyval) :
  In (external, internal) [("location", "address"); ("employees", "employee_estimate")] ->
  NoDup (keys d) ->
  (forall k, In k (keys d) -> snake_key k = internal -> k = external) ->
  dict_get external d = Some v ->
  (exists r, camel_to_snake_dict (Some d) = Some r /\ dict_get internal r = Some v)
  /\ camel_to_snake_dict (Some [("location", a); ("address", b)]) = Some [("address", b)].
Proof.
  intros Hpair Hnd Hinv Hget. split; [|reflexivity].
  exists (camel_to_snake_items d). split; [reflexivity|].
  rewrite camel_to_snake_items_rekey.
  rewrite (rekey_get_via snake_key (fun v => v) external internal d);
    [now rewrite Hget | | exact Hinv | exact Hnd].
  destruct Hpair as [[= <- <-] | [[= <- <-] | []]]; reflexivity.
Qed.

Lemma internalize_irregular_rename_witness :
  exists r,
    camel_to_snake_dict (Some [("name", PStr "Acme"); ("employees", PInt 12)]) = Some r
    /\ dict_get "employee_estimate" r = Some (PInt 12).
Proof.
  refine (proj1 (internalize_irregular_rename
                   [("name", PStr "Acme"); ("employees", PInt 12)]
                   "employees" "employee_estimate" (PInt 12) PNone PNone _ _ _ _)).
  - right. left. reflexivity.
  - repeat constructor; simpl; intuition discriminate.
  - intros k [<- | [<- | []]]; [discriminate | reflexivity].
  - reflexivity.
Defined.

(** ** Field sets *)

Lemma dict_set_In_other (k0 : string) (v0 : pyval) (d : dict) (k : string) (v : pyval) :
  k <> k0 -> In (k, v) d -> In (k, v) (dict_set k0 v0 d).
Proof.
  intros Hne. induction d as [|[k1 v1] d IH]; simpl; [tauto|].
  destruct (String.eqb k0 k1) eqn:E; simpl.
  - apply String.eqb_eq in E. subst k1. intros [[= <- _] | Hin]; [congruence | now right].
  - intros [H | Hin]; [now left | right; auto].
Qed.

Lemma forallb_false {A : Type} (f : A -> bool) (l : list A) :
  forallb f l = false -> exists x, In x l /\ f x = false.
Proof.
  induction l as [|a l IH]; simpl; [discriminate|].
  destruct (f a) eqn:E; simpl.
  - intros H. destruct (IH H) as (x & Hx & Hf). eauto.
  - intros _. eauto.
Qed.

Lemma create_insert_data_Ok (new_id : uuid) (now : datetime) (dumped ins : dict) :
  create_insert_data new_id now dumped = Ok ins ->
  ins = filter_allowed allowed_columns
          (dict_set "updated_at" (PDatetime now)
             (dict_set "created_at" (PDatetime now)
                (dict_set "id" (PUuid new_id) (camel_to_snake_items dumped)))).
Proof.
  unfold create_insert_data. cbn [camel_to_snake_dict].
  set (d := filter_allowed allowed_columns _).
  assert (Hid : dict_mem "id" d = true).
  { unfold dict_mem, d.
    rewrite (dict_get_filter_allowed allowed_columns "id" (PUuid new_id));
      [reflexivity | apply mem_In; reflexivity | discriminate |].
    rewrite !dict_get_set_other by discriminate. apply dict_get_set_same. }
  assert (Hc : dict_mem "created_at" d = true).
  { unfold dict_mem, d.
    rewrite (dict_get_filter_allowed allowed_columns "created_at" (PDatetime now));
      [reflexivity | apply mem_In; reflexivity | discriminate |].
    rewrite dict_get_set_other by discriminate. apply dict_get_set_same. }
  assert (Hu : dict_mem "updated_at" d = true).
  { unfold dict_mem, d.
    rewrite (dict_get_filter_allowed allowed_columns "updated_at" (PDatetime now));
      [reflexivity | apply mem_In; reflexivity | discriminate |].
    apply dict_get_set_same. }
  destruct (negb (dict_mem "name" d)); [discriminate|].
  rewrite Hid. cbn [negb]. rewrite Hc. cbn [negb]. rewrite Hu. cbn [negb].
  now intros [= <-].
Qed.

(** X5: [update_company] gets past its two checks exactly when the
    internalized request has a value that is not [None] under an
    updatable column other than [updated_at]. *)
Theorem update_accepted_iff (now : datetime) (dumped : dict) :
  (exists upd, update_fields_of now dumped = Ok upd)
  <-> exists k v,
        In (k, v) (camel_to_snake_items dumped)
        /\ v <> PNone /\ In k allowed_update_columns /\ k <> "updated_at".
Proof.
  split.
  - intros (upd & Hupd). pose proof (update_fields_of_Ok _ _ _ Hupd) as Heq.
    revert Hupd. unfold update_fields_of. cbn [camel_to_snake_dict].
    destruct (not_dict (Some (camel_to_snake_items dumped))); [discriminate|].
    rewrite <- Heq.
    destruct (not_dict (Some upd) || forallb (fun k => String.eqb k "updated_at") (keys upd))
      eqn:E; [discriminate|].
    intros _. apply orb_false_iff in E. destruct E as [_ E].
    apply forallb_false in E. destruct E as (k & Hk & Hne).
    apply String.eqb_neq in Hne.
    unfold keys in Hk. apply in_map_iff in Hk. destruct Hk as ([k' v] & Hk' & Hin).
    cbn [fst] in Hk'. subst k'. rewrite Heq in Hin.
    apply filter_allowed_In in Hin. destruct Hin as (Hin & Hal & Hv).
    apply dict_set_In in Hin. destruct Hin as [[= -> _] | Hin]; [congruence|].
    exists k, v. auto.
  - intros (k & v & Hin & Hv & Hal & Hne).
    unfold update_fields_of. cbn [camel_to_snake_dict].
    assert (E0 : not_dict (Some (camel_to_snake_items dumped)) = false)
      by (destruct (camel_to_snake_items dumped); [contradiction | reflexivity]).
    rewrite E0.
    set (upd := filter_allowed _ _).
    assert (Hupd : In (k, v) upd).
    { apply filter_allowed_In. cbn [fst snd]. repeat split; auto.
      now apply dict_set_In_other. }
    assert (E1 : not_dict (Some upd) = false) by (destruct upd; [contradiction | reflexivity]).
    assert (E2 : forallb (fun k => String.eqb k "updated_at") (keys upd) = false).
    { destruct (forallb _ (keys upd)) eqn:E; [|reflexivity].
      rewrite forallb_forall in E. apply (in_map fst) in Hupd.
      specialize (E _ Hupd). apply String.eqb_eq in E. contradiction. }
    rewrite E1, E2. eexists; reflexivity.
Qed.

Lemma update_accepted_iff_witness :
  exists upd,
    update_fields_of (mk_datetime 2024 5 17 10 30 0 0)
                     [("name", PNone); ("employees", PInt 40)] = Ok upd.
Proof.
  apply (proj2 (update_accepted_iff (mk_datetime 2024 5 17 10 30 0 0)
                  [("name", PNone); ("employees", PInt 40)])).
  exists "employee_estimate", (PInt 40). repeat split.
  - right. left. reflexivity.
  - discriminate.
  - apply mem_In. reflexivity.
  - discriminate.
Defined.

(** X6: whatever the request dictionary holds, also under [id],
    [createdAt] or [updatedAt], the filtered dictionary already has
    [id], [created_at] and [updated_at], so that the three assignments
    that follow the filter never fire and the field set of the INSERT is
    the filtered dictionary as it is; it binds [id] to the generated
    identifier and [created_at] and [updated_at] to the current time,
    and its keys are distinct. *)
Theorem create_forces_server_fields (new_id : uuid) (now : datetime) (dumped ins : dict) :
  create_insert_data new_id now dumped = Ok ins ->
  let filtered :=
    filter_allowed allowed_columns
      (dict_set "updated_at" (PDatetime now)
         (dict_set "created_at" (PDatetime now)
            (dict_set "id" (PUuid new_id) (camel_to_snake_items dumped)))) in
  dict_mem "id" filtered = true
  /\ dict_mem "created_at" filtered = true
  /\ dict_mem "updated_at" filtered = true
  /\ ins = filtered
  /\ dict_get "id" ins = Some (PUuid new_id)
  /\ dict_get "created_at" ins = Some (PDatetime now)
  /\ dict_get "updated_at" ins = Some (PDatetime now)
  /\ NoDup (keys ins).
Proof.
  intros Hins. cbv zeta. rewrite (create_insert_data_Ok _ _ _ _ Hins).
  assert (Hid : dict_get "id"
                  (filter_allowed allowed_columns
                     (dict_set "updated_at" (PDatetime now)
                        (dict_set "created_at" (PDatetime now)
                           (dict_set "id" (PUuid new_id) (camel_to_snake_items dumped)))))
                = Some (PUuid new_id)).
  { apply dict_get_filter_allowed; [apply mem_In; reflexivity | discriminate |].
    rewrite !dict_get_set_other by discriminate. apply dict_get_set_same. }
  assert (Hc : dict_get "created_at"
                 (filter_allowed allowed_columns
                    (dict_set "updated_at" (PDatetime now)
                       (dict_set "created_at" (PDatetime now)
                          (dict_set "id" (PUuid new_id) (camel_to_snake_items dumped)))))
               = Some (PDatetime now)).
  { apply dict_get_filter_allowed; [apply mem_In; reflexivity | discriminate |].
    rewrite dict_get_set_other by discriminate. apply dict_get_set_same. }
  assert (Hu : dict_get "updated_at"
                 (filter_allowed allowed_columns
                    (dict_set "updated_at" (PDatetime now)
                       (dict_set "created_at" (PDatetime now)
                          (dict_set "id" (PUuid new_id) (camel_to_snake_items dumped)))))
               = Some (PDatetime now)).
  { apply dict_get_filter_allowed; [apply mem_In; reflexivity | discriminate |].
    apply dict_get_set_same. }
  unfold dict_mem. rewrite Hid, Hc, Hu.
  repeat split.
  apply filter_allowed_NoDup. repeat apply dict_set_NoDup.
  apply camel_to_snake_items_NoDup.
Qed.

Lemma create_forces_server_fields_witness :
  let now := mk_datetime 2024 5 17 10 30 0 0 in
  let ins := [("name", PStr "Acme"); ("id", PUuid 2%N);
              ("created_at", PDatetime now); ("updated_at", PDatetime now)] in
  let filtered :=
    filter_allowed allowed_columns
      (dict_set "updated_at" (PDatetime now)
         (dict_set "created_at" (PDatetime now)
            (dict_set "id" (PUuid 2%N)
               (camel_to_snake_items
                  [("name", PStr "Acme"); ("id", PStr "chosen-by-client");
                   ("createdAt", PStr "1999-01-01")])))) in
  dict_mem "id" filtered = true
  /\ dict_mem "created_at" filtered = true
  /\ dict_mem "updated_at" filtered = true
  /\ ins = filtered
  /\ dict_get "id" ins = Some (PUuid 2%N)
  /\ dict_get "created_at" ins = Some (PDatetime now)
  /\ dict_get "updated_at" ins = Some (PDatetime now)
  /\ NoDup (keys ins).
Proof.
  intros now ins.
  apply (create_forces_server_fields 2%N now
           [("name", PStr "Acme"); ("id", PStr "chosen-by-client");
            ("createdAt", PStr "1999-01-01")] ins).
  reflexivity.
Defined.

(** X7: [create_company] gets past its name check exactly when the
    internalized request binds [name] to a value that is not [None];
    a request that validated against [CreateCompanyRequest] always
    does. *)
Theorem create_accepted_iff (new_id : uuid) (now : datetime) (dumped : dict)
    (request : CreateCompanyRequest.t) :
  ((exists ins, create_insert_data new_id now dumped = Ok ins)
   <-> exists v, dict_get "name" (camel_to_snake_items dumped) = Some v /\ v <> PNone)
  /\ exists ins,
       create_insert_data new_id now (CreateCompanyRequest.model_dump request) = Ok ins.
Proof.
  split; [|apply create_insert_data_request].
  unfold create_insert_data. cbn [camel_to_snake_dict].
  set (x := dict_set "updated_at" _ _).
  assert (Hx : forall v, dict_get "name" x = Some v
                         <-> dict_get "name" (camel_to_snake_items dumped) = Some v).
  { intros v. unfold x. now rewrite !dict_get_set_other by discriminate. }
  set (d := filter_allowed allowed_columns x).
  split.
  - destruct (dict_mem "name" d) eqn:E; cbn [negb]; [|intros (ins & H); discriminate].
    intros _. apply dict_mem_In in E. unfold keys in E. apply in_map_iff in E.
    destruct E as ([k v] & Hk & Hin). cbn [fst] in Hk. subst k.
    apply filter_allowed_In in Hin. destruct Hin as (Hin & _ & Hv).
    exists v. split; [|exact Hv]. apply Hx.
    destruct (dict_get "name" x) as [v'|] eqn:Hg.
    + f_equal. eapply NoDup_keys_unique; [| apply dict_get_In, Hg | exact Hin].
      unfold x. repeat apply dict_set_NoDup. apply camel_to_snake_items_NoDup.
    + apply dict_get_None in Hg. exfalso. apply Hg. apply (in_map fst) in Hin. exact Hin.
  - intros (v & Hget & Hv). apply Hx in Hget.
    assert (E : dict_mem "name" d = true).
    { unfold dict_mem, d.
      rewrite (dict_get_filter_allowed allowed_columns "name" v);
        [reflexivity | apply mem_In; reflexivity | exact Hv | exact Hget]. }
    rewrite E. cbn [negb]. eexists; reflexivity.
Qed.

Lemma create_accepted_iff_witness :
  exists v,
    dict_get "name" (camel_to_snake_items [("industry", PStr "Tools"); ("name", PStr "Acme")])
      = Some v /\ v <> PNone.
Proof.
  apply (proj1 (proj1 (create_accepted_iff 2%N (mk_datetime 2024 5 17 10 30 0 0)
                         [("industry", PStr "Tools"); ("name", PStr "Acme")]
                         (CreateCompanyRequest.mk "Acme" "Tools" "1 Main St"
                                                  Unset Unset Unset)))).
  eexists. reflexivity.
Defined.





(** ** The response models on the rows of the store *)

Lemma req_text_shows (x : pyval) (i : string) :
  Company.req_text (Some (externalize_value x)) = Some i -> shows_text i x.
Proof. unfold shows_text. destruct x; simpl; congruence. Qed.

Lemma req_str_shows (x : pyval) (i : string) :
  Company.req_str (Some (externalize_value x)) = Some i -> shows_text i x.
Proof. unfold shows_text. destruct x; simpl; congruence. Qed.

Lemma opt_str_shows (x : pyval) (o : option string) :
  Company.opt_str (Some (externalize_value x)) = Some o -> shows_opt_text o x.
Proof. unfold shows_opt_text. destruct x; simpl; intros [= <-]; reflexivity. Qed.

Lemma opt_int_shows (x : pyval) (o : option Z) :
  Company.opt_int (Some (externalize_value x)) = Some o -> shows_opt_int o x.
Proof. unfold shows_opt_int. destruct x; simpl; intros [= <-]; reflexivity. Qed.

Lemma model_validate_shows_company (row : dict) (c : Company.t) :
  Company.model_validate (row_to_camel_dict (Some (project select_columns row))) = Some c ->
  shows_company c row.
Proof.
  change (row_to_camel_dict (Some (project select_columns row)))
    with (Some [("id", externalize_value (column "id" row));
                ("name", externalize_value (column "name" row));
                ("industry", externalize_value (column "industry" row));
                ("address", externalize_value (column "address" row));
                ("logoUrl", externalize_value (column "logo_url" row));
                ("revenue", externalize_value (column "revenue" row));
                ("employeeEstimate", externalize_value (column "employee_estimate" row));
                ("createdAt", externalize_value (column "created_at" row));
                ("updatedAt", externalize_value (column "updated_at" row))]).
  unfold Company.model_validate, Company.lookup.
  cbn [dict_get String.eqb Ascii.eqb Bool.eqb].
  destruct (Company.req_text (Some (externalize_value (column "id" row)))) eqn:E1;
    [|discriminate].
  destruct (Company.req_str _) eqn:E2; [|discriminate].
  destruct (Company.opt_str (Some (externalize_value (column "industry" row)))) eqn:E3;
    [|discriminate].
  destruct (Company.opt_str (Some (externalize_value (column "address" row)))) eqn:E4;
    [|discriminate].
  destruct (Company.opt_str (Some (externalize_value (column "logo_url" row)))) eqn:E5;
    [|discriminate].
  destruct (Company.opt_int (Some (externalize_value (column "revenue" row)))) eqn:E6;
    [|discriminate].
  destruct (Company.opt_int (Some (externalize_value (column "employee_estimate" row))))
    eqn:E7; [|discriminate].
  destruct (Company.req_text (Some (externalize_value (column "created_at" row)))) eqn:E8;
    [|discriminate].
  destruct (Company.req_text (Some (externalize_value (column "updated_at" row)))) eqn:E9;
    [|discriminate].
  intros [= <-]. unfold shows_company. cbn.
  repeat split;
    auto using req_text_shows, req_str_shows, opt_str_shows, opt_int_shows.
Qed.

Lemma model_validate_shows_item (row : dict) (item : CompanyListItem.t) :
  CompanyListItem.model_validate (row_to_camel_dict (Some (project list_columns row)))
    = Some item ->
  shows_item row item.
Proof.
  change (row_to_camel_dict (Some (project list_columns row)))
    with (Some [("id", externalize_value (column "id" row));
                ("name", externalize_value (column "name" row));
                ("industry", externalize_value (column "industry" row));
                ("address", externalize_value (column "address" row));
                ("logoUrl", externalize_value (column "logo_url" row));
                ("employeeEstimate", externalize_value (column "employee_estimate" row))]).
  unfold CompanyListItem.model_validate, Company.lookup.
  cbn [dict_get String.eqb Ascii.eqb Bool.eqb].
  destruct (Company.req_text (Some (externalize_value (column "id" row)))) eqn:E1;
    [|discriminate].
  destruct (Company.req_str _) eqn:E2; [|discriminate].
  destruct (Company.opt_str (Some (externalize_value (column "industry" row)))) eqn:E3;
    [|discriminate].
  destruct (Company.opt_str (Some (externalize_value (column "address" row)))) eqn:E4;
    [|discriminate].
  destruct (Company.opt_str (Some (externalize_value (column "logo_url" row)))) eqn:E5;
    [|discriminate].
  destruct (Company.opt_int (Some (externalize_value (column "employee_estimate" row))))
    eqn:E7; [|discriminate].
  intros [= <-]. unfold shows_item. cbn.
  repeat split;
    auto using req_text_shows, req_str_shows, opt_str_shows, opt_int_shows.
Qed.

Lemma model_validate_item_null_name (row : dict) :
  column "name" row = PNone ->
  CompanyListItem.model_validate (row_to_camel_dict (Some (project list_columns row))) = None.
Proof.
  intros Hn.
  destruct (CompanyListItem.model_validate _) as [item|] eqn:E; [|reflexivity].
  apply model_validate_shows_item in E. destruct E as (_ & E & _).
  unfold shows_text in E. rewrite Hn in E. discriminate.
Qed.

(** ** [list_companies], case by case *)

Section ListFacts.

Variable order_by_name : table -> table.

Lemma validate_rows_spec (results : list dict) :
  forall acc cw,
    validate_rows results acc cw =
    match validate_all results with
    | Some items => (Ok (acc ++ items)%list, cw)
    | None => (Raise (ValidationError "CompanyListItem"), cw)
    end.
Proof.
  induction results as [|row results IH]; intros acc cw; cbn [validate_rows validate_all].
  - now rewrite app_nil_r.
  - destruct (CompanyListItem.model_validate _) as [item|]; [|reflexivity].
    rewrite IH. destruct (validate_all results); [|reflexivity].
    now rewrite <- app_assoc.
Qed.

Lemma list_companies_spec (w : world) :
  list_companies order_by_name w =
  if configured w then
    let w' := mk_world (postgres_url w) (db_up w) (committed w)
                       (executed w ++ [(list_query, [])])%list in
    match validate_all (map (project list_columns) (order_by_name (committed w))) with
    | Some items => (Ok items, w')
    | None => (Raise operation_failed, w')
    end
  else (Raise operation_failed, w).
Proof.
  unfold list_companies, try_except. rewrite get_db_cursor_spec.
  destruct (configured w); [|reflexivity].
  unfold bind, cursor_execute_list, cursor_fetchall.
  cbn [fst snd working result_set]. rewrite validate_rows_spec.
  destruct (validate_all _); reflexivity.
Qed.

Lemma validate_all_shows (rows : list dict) :
  forall items,
    validate_all (map (project list_columns) rows) = Some items ->
    Forall2 shows_item rows items.
Proof.
  induction rows as [|row rows IH]; cbn [map validate_all]; intros items.
  - intros [= <-]. constructor.
  - destruct (CompanyListItem.model_validate _) as [item|] eqn:E; [|discriminate].
    destruct (validate_all _) as [items'|]; [|discriminate].
    intros [= <-]. constructor; [now apply model_validate_shows_item | now apply IH].
Qed.

Lemma validate_all_null_name (rows : list dict) (row : dict) :
  In row rows -> column "name" row = PNone ->
  validate_all (map (project list_columns) rows) = None.
Proof.
  induction rows as [|r rows IH]; cbn [map validate_all In]; [tauto|].
  intros [-> | Hin] Hn.
  - now rewrite (model_validate_item_null_name row Hn).
  - rewrite (IH Hin Hn). now destruct (CompanyListItem.model_validate _).
Qed.

(** X9: when [list_companies] returns, its items are, in the order in
    which the store gave the rows, what the rows hold: [location] is the
    [address] column, [logoUrl] the [logo_url] column, [employees] the
    [employee_estimate] column, NULL is [None], and identifiers are in
    text form; the table is as it was and the one statement sent is the
    SELECT. *)
Theorem list_companies_shows_rows (w : world) (items : list CompanyListItem.t) :
  fst (list_companies order_by_name w) = Ok items ->
  Forall2 shows_item (order_by_name (committed w)) items
  /\ committed (snd (list_companies order_by_name w)) = committed w
  /\ executed (snd (list_companies order_by_name w))
     = (executed w ++ [(list_query, [])])%list.
Proof.
  rewrite list_companies_spec.
  destruct (configured w); [|discriminate]. cbv zeta.
  destruct (validate_all _) as [items'|] eqn:E; [|discriminate].
  cbn [fst snd committed executed]. intros [= <-].
  split; [now apply validate_all_shows | split; reflexivity].
Qed.

(** X10: one row without a name makes the whole listing fail: with a
    row whose [name] column is NULL in the table, [list_companies]
    raises the 500 of [get_db_cursor], whatever the other rows are. *)
Theorem list_companies_null_name_fails (w : world) (row : dict) :
  (forall t r, In r t -> In r (order_by_name t)) ->
  In row (committed w) ->
  column "name" row = PNone ->
  fst (list_companies order_by_name w)
    = Raise (HTTPException 500 "Database operation failed.").
Proof.
  intros Hord Hin Hn. rewrite list_companies_spec.
  destruct (configured w); [|reflexivity]. cbv zeta.
  now rewrite (validate_all_null_name _ row (Hord _ _ Hin) Hn).
Qed.

End ListFacts.

Lemma list_companies_shows_rows_witness :
  let w := mk_world (Some "postgresql://store") true
             [[("id", PUuid 1%N); ("name", PStr "Acme"); ("address", PStr "1 Main St")];
              [("id", PUuid 2%N); ("name", PStr "Bolt"); ("employee_estimate", PInt 3)]] [] in
  let items :=
    [CompanyListItem.mk "00000000-0000-0000-0000-000000000002" "Bolt" None None None (Some 3%Z);
     CompanyListItem.mk "00000000-0000-0000-0000-000000000001" "Acme" None
                        (Some "1 Main St") None None] in
  Forall2 shows_item (rev (committed w)) items
  /\ committed (snd (list_companies (@rev dict) w)) = committed w
  /\ executed (snd (list_companies (@rev dict) w))
     = (executed w ++ [(list_query, [])])%list.
Proof.
  intros w items. apply (list_companies_shows_rows (@rev dict) w items). reflexivity.
Defined.

Lemma list_companies_null_name_fails_witness :
  let w := mk_world (Some "postgresql://store") true
             [[("id", PUuid 1%N); ("name", PStr "Acme")];
              [("id", PUuid 2%N); ("industry", PStr "Tools")]] [] in
  fst (list_companies (fun t => t) w)
    = Raise (HTTPException 500 "Database operation failed.").
Proof.
  intros w.
  apply (list_companies_null_name_fails (fun t => t) w
           [("id", PUuid 2%N); ("industry", PStr "Tools")]).
  - intros t r Hr. exact Hr.
  - right. left. reflexivity.
  - reflexivity.
Defined.

(** ** The cursor, and what the handlers answer *)

Lemma unreachable_not_configured (w : world) : unreachable w -> configured w = false.
Proof.
  unfold unreachable, configured.
  intros [H | [H | H]]; rewrite H; cbn; [reflexivity | reflexivity | apply andb_false_r].
Qed.

(** X11: with a reachable store, what is raised in the body of
    [with get_db_cursor(commit)] never reaches the caller: the caller
    gets [HTTPException(500, "Database operation failed.")] in its
    place, and what the body wrote through the connection is not
    committed; when the body returns, its result is returned, and its
    writes are committed exactly when [commit] is set. *)
Theorem get_db_cursor_outcomes (A : Type) (commit : bool) (body : Conn A) (w : world) :
  configured w = true ->
  match body (mk_connection (committed w) [], w) with
  | (Ok a, (conn, w')) =>
      get_db_cursor commit body w
      = (Ok a, if commit then set_committed (working conn) w' else w')
  | (Raise _, (_, w')) =>
      get_db_cursor commit body w
      = (Raise (HTTPException 500 "Database operation failed."), w')
  end.
Proof.
  intros Hconf. rewrite get_db_cursor_spec, Hconf.
  destruct (body _) as [[a|e] [conn w']]; reflexivity.
Qed.

Lemma get_db_cursor_outcomes_witness :
  let w := mk_world (Some "postgresql://store") true
                    [[("id", PUuid 1%N); ("name", PStr "Acme")]] [] in
  let body : Conn unit :=
    cursor_execute DeleteCompany [PStr (uuid_str 1%N)] ;;;
    raise (HTTPException 404 "Company not found") in
  get_db_cursor true body w
  = (Raise (HTTPException 500 "Database operation failed."),
     log_statement DeleteCompany [PStr (uuid_str 1%N)] w).
Proof.
  intros w body. apply (get_db_cursor_outcomes unit true body w). reflexivity.
Defined.

(** X12: when the secret is missing or empty, or the server refuses the
    connection, no handler returns and none sends a statement: the world
    is as it was; [get_company], [list_companies] and [delete_company]
    answer the 500 of [get_db_cursor]. *)
Theorem unreachable_store (order_by_name : table -> table) (company_id : pyval)
    (new_id : uuid) (now : datetime) (dumped : dict) (w : world) :
  unreachable w ->
  get_company company_id w = (Raise operation_failed, w)
  /\ list_companies order_by_name w = (Raise operation_failed, w)
  /\ delete_company company_id w = (Raise operation_failed, w)
  /\ (exists e, create_company_dumped new_id now dumped w = (Raise e, w))
  /\ (exists e, update_company_dumped company_id now dumped w = (Raise e, w)).
Proof.
  intros Hun. apply unreachable_not_configured in Hun.
  rewrite get_company_spec, list_companies_spec, delete_company_spec,
    create_company_dumped_spec, update_company_dumped_spec, Hun.
  repeat split.
  - destruct (create_insert_data new_id now dumped); eexists; reflexivity.
  - destruct (update_fields_of now dumped); eexists; reflexivity.
Qed.

Lemma unreachable_store_witness :
  let w := mk_world None true [[("id", PUuid 1%N); ("name", PStr "Acme")]] [] in
  get_company (PUuid 1%N) w = (Raise operation_failed, w)
  /\ list_companies (fun t => t) w = (Raise operation_failed, w)
  /\ delete_company (PUuid 1%N) w = (Raise operation_failed, w)
  /\ (exists e, create_company_dumped 2%N (mk_datetime 2024 5 17 10 30 0 0)
                  [("name", PStr "Bolt")] w = (Raise e, w))
  /\ (exists e, update_company_dumped (PUuid 1%N) (mk_datetime 2024 5 17 10 30 0 0)
                  [("name", PStr "Bolt")] w = (Raise e, w)).
Proof.
  intros w. apply unreachable_store. left. reflexivity.
Defined.

Lemma get_company_raises (company_id : pyval) (w : world) (e : exn) :
  fst (get_company company_id w) = Raise e -> e = operation_failed.
Proof.
  rewrite get_company_spec.
  destruct (configured w); [|now intros [= <-]]. cbv zeta.
  destruct (select_company _ _); [|now intros [= <-]].
  destruct (Company.model_validate _); [discriminate | now intros [= <-]].
Qed.

(** X13: the only exceptions the five handlers raise are the 400s of the
    checks of create and update and the 500 of [get_db_cursor].
    [delete_company] always raises it. No handler raises a 404, and none
    of the messages of the handlers' own [except] clauses is ever
    used. *)
Theorem handlers_raise_400_or_500 (order_by_name : table -> table) (company_id : pyval)
    (new_id : uuid) (now : datetime) (dumped : dict) (w : world) (e : exn) :
  (fst (get_company company_id w) = Raise e -> e = operation_failed)
  /\ (fst (list_companies order_by_name w) = Raise e -> e = operation_failed)
  /\ fst (delete_company company_id w) = Raise operation_failed
  /\ (fst (create_company_dumped new_id now dumped w) = Raise e ->
      e = operation_failed \/ e = HTTPException 400 "Company name is required.")
  /\ (fst (update_company_dumped company_id now dumped w) = Raise e ->
      e = operation_failed
      \/ e = HTTPException 400 "No update data provided."
      \/ e = HTTPException 400 "No valid fields provided for update.").
Proof.
  split; [apply get_company_raises|].
  split.
  { rewrite list_companies_spec.
    destruct (configured w); [|now intros [= <-]]. cbv zeta.
    destruct (validate_all _); [discriminate | now intros [= <-]]. }
  split; [now rewrite delete_company_spec|].
  split.
  - rewrite create_company_dumped_spec.
    destruct (create_insert_data new_id now dumped) as [ins|e0] eqn:Hins.
    + intros [= <-]. now left.
    + intros [= <-]. right. revert Hins. unfold create_insert_data.
      cbn [camel_to_snake_dict].
      destruct (negb (dict_mem "name" _)); [now intros [= <-] | discriminate].
  - rewrite update_company_dumped_spec.
    destruct (update_fields_of now dumped) as [upd|e0] eqn:Hupd.
    + destruct (configured w); [|intros [= <-]; now left]. cbv zeta.
      destruct (forallb adaptable (values upd)); [|intros [= <-]; now left].
      destruct (fits_columns upd); [|intros [= <-]; now left].
      destruct (filter _ _) as [|row rows]; [intros [= <-]; now left|].
      destruct (get_company _ _) as [[c|e1] w2]; [discriminate | intros [= <-]; now left].
    + intros [= <-]. right. revert Hupd. unfold update_fields_of.
      cbn [camel_to_snake_dict].
      destruct (not_dict (Some _)); [intros [= <-]; now left|].
      match goal with |- (if ?b then _ else _) = _ -> _ => destruct b end;
        [intros [= <-]; now right | discriminate].
Qed.

Lemma handlers_raise_400_or_500_witness :
  let w := mk_world (Some "postgresql://store") true [] [] in
  let now := mk_datetime 2024 5 17 10 30 0 0 in
  let e := HTTPException 400 "No valid fields provided for update." in
  fst (update_company_dumped (PUuid 1%N) now [("name", PNone)] w) = Raise e
  /\ (e = operation_failed
      \/ e = HTTPException 400 "No update data provided."
      \/ e = HTTPException 400 "No valid fields provided for update.").
Proof.
  intros w now e. split; [reflexivity|].
  refine (proj2 (proj2 (proj2 (proj2
            (handlers_raise_400_or_500 (fun t => t) (PUuid 1%N) 2%N now
               [("name", PNone)] w e)))) _).
  reflexivity.
Defined.

(** X14: [update_company] writes all or nothing: when it returns, the
    table holds, in whatever order, the rows it held with the field set
    assigned to those of the identifier, and when it raises, the table is
    as it was. [create_company] never returns and leaves the world as it
    was, whatever the request and the store; and after every
    [delete_company], [get_company] and [list_companies] the table is as
    it was. *)
Theorem writes_commit_iff_return (order_by_name : table -> table) (company_id : pyval)
    (new_id : uuid) (now : datetime) (dumped : dict) (w : world) :
  (forall c, fst (update_company_dumped company_id now dumped w) = Ok c ->
     exists upd, update_fields_of now dumped = Ok upd
       /\ Permutation
            (committed (snd (update_company_dumped company_id now dumped w)))
            (update_rows (PStr (py_str company_id)) upd (committed w)))
  /\ (forall e, fst (update_company_dumped company_id now dumped w) = Raise e ->
        committed (snd (update_company_dumped company_id now dumped w)) = committed w)
  /\ (exists e, create_company_dumped new_id now dumped w = (Raise e, w))
  /\ committed (snd (delete_company company_id w)) = committed w
  /\ committed (snd (get_company company_id w)) = committed w
  /\ committed (snd (list_companies order_by_name w)) = committed w.
Proof.
  split; [|split; [|split; [|split; [|split]]]].
  - intros c Hok. destruct (update_company_dumped_Ok _ _ _ _ _ Hok) as (upd & Hupd & ->).
    exists upd. split; [exact Hupd | apply Permutation_refl].
  - intros e He.
    destruct (update_company_dumped_committed company_id now dumped w)
      as [H | (upd & c & _ & Hok & _)]; [exact H | congruence].
  - rewrite create_company_dumped_spec.
    destruct (create_insert_data new_id now dumped); eexists; reflexivity.
  - rewrite delete_company_spec. now destruct (configured w).
  - apply get_company_committed.
  - rewrite list_companies_spec. destruct (configured w); [|reflexivity]. cbv zeta.
    now destruct (validate_all _).
Qed.

Lemma writes_commit_iff_return_witness :
  let now := mk_datetime 2024 5 17 10 30 0 0 in
  let row := [("id", PUuid 1%N); ("name", PStr "Acme");
              ("created_at", PDatetime now); ("updated_at", PDatetime now)] in
  let w := mk_world (Some "postgresql://store") true [row] [] in
  let dumped := [("name", PStr "Bolt")] in
  exists upd, update_fields_of now dumped = Ok upd
    /\ Permutation
         (committed (snd (update_company_dumped (PUuid 1%N) now dumped w)))
         (update_rows (PStr (py_str (PUuid 1%N))) upd (committed w)).
Proof.
  intros now row w dumped.
  refine (proj1 (writes_commit_iff_return (fun t => t) (PUuid 1%N) 2%N now dumped w) _ _).
  reflexivity.
Defined.

(** ** Get, and get around an update *)

Lemma get_company_Ok (company_id : pyval) (w : world) (c : Company.t) :
  fst (get_company company_id w) = Ok c <->
  configured w = true
  /\ exists row rest,
       filter (id_matches (PStr (py_str company_id))) (committed w) = row :: rest
       /\ Company.model_validate (row_to_camel_dict (Some (project select_columns row)))
          = Some c.
Proof.
  rewrite get_company_spec. unfold select_company.
  destruct (configured w); [|split; [discriminate | intros [H _]; discriminate]].
  cbv zeta.
  destruct (filter _ (committed w)) as [|row rest] eqn:Hf; cbn [map hd_error].
  - split; [discriminate | intros (_ & r & rs & H & _); discriminate].
  - destruct (Company.model_validate _) as [c'|] eqn:Hv; cbn [fst].
    + split.
      * intros [= <-]. split; [reflexivity|]. exists row, rest. now split.
      * intros (_ & r & rs & [= <- <-] & Hv'). rewrite Hv in Hv'.
        now injection Hv' as <-.
    + split; [discriminate|]. intros (_ & r & rs & [= <- <-] & Hv').
      rewrite Hv in Hv'. discriminate.
Qed.

Lemma get_company_Ok_log (company_id : pyval) (w : world) (c : Company.t) :
  fst (get_company company_id w) = Ok c ->
  snd (get_company company_id w)
  = log_statement SelectCompany [PStr (py_str company_id)] w.
Proof.
  rewrite get_company_spec.
  destruct (configured w); [|discriminate]. cbv zeta.
  destruct (select_company _ _); [|discriminate].
  destruct (Company.model_validate _); [reflexivity | discriminate].
Qed.

Lemma id_matches_text (p : pyval) (row : dict) :
  id_matches p row = true -> py_str (column "id" row) = py_str p.
Proof.
  unfold id_matches. rewrite !andb_true_iff, String.eqb_eq. tauto.
Qed.

Lemma filter_head {A : Type} (f : A -> bool) (l : list A) (a : A) (rest : list A) :
  filter f l = a :: rest -> In a l /\ f a = true.
Proof.
  intros H. apply filter_In. rewrite H. now left.
Qed.

Lemma id_matches_assign (p : pyval) (sets row : dict) :
  ~ In "id" (keys sets) -> id_matches p (assign sets row) = id_matches p row.
Proof.
  intros Hid. unfold id_matches, column. now rewrite (assign_other sets "id" Hid).
Qed.

Lemma filter_update_rows (p : pyval) (sets : dict) (t : table) :
  ~ In "id" (keys sets) ->
  filter (id_matches p) (update_rows p sets t) = map (assign sets) (filter (id_matches p) t).
Proof.
  intros Hid. unfold update_rows. induction t as [|row t IH]; [reflexivity|].
  cbn [map filter]. destruct (id_matches p row) eqn:E.
  - rewrite (id_matches_assign p sets row Hid), E. cbn [map]. now rewrite IH.
  - rewrite E. exact IH.
Qed.

(** X15: when [get_company] returns, the record is what the first row
    with the identifier holds: [location] is the [address] column,
    [logoUrl] the [logo_url] column, [employees] the [employee_estimate]
    column, NULL is [None], identifier and timestamps are in text form;
    and the only trace the call leaves is the SELECT in the log. *)
Theorem get_company_shows_row (company_id : pyval) (w : world) (c : Company.t) :
  fst (get_company company_id w) = Ok c ->
  (exists row rest,
      filter (id_matches (PStr (py_str company_id))) (committed w) = row :: rest
      /\ shows_company c row)
  /\ snd (get_company company_id w)
     = log_statement SelectCompany [PStr (py_str company_id)] w.
Proof.
  intros Hok. split.
  - apply get_company_Ok in Hok. destruct Hok as (_ & row & rest & Hf & Hv).
    exists row, rest. split; [exact Hf | now apply model_validate_shows_company].
  - now apply get_company_Ok_log with (c := c).
Qed.

Lemma get_company_shows_row_witness :
  let t0 := mk_datetime 2023 1 2 3 4 5 0 in
  let row := [("id", PUuid 1%N); ("name", PStr "Acme"); ("address", PStr "1 Main St");
              ("employee_estimate", PInt 12);
              ("created_at", PDatetime t0); ("updated_at", PDatetime t0)] in
  let w := mk_world (Some "postgresql://store") true [row] [] in
  let c := Company.mk "00000000-0000-0000-0000-000000000001" "Acme" None
             (Some "1 Main St") None None (Some 12%Z)
             "2023-01-02T03:04:05" "2023-01-02T03:04:05" in
  (exists row' rest,
      filter (id_matches (PStr (py_str (PUuid 1%N)))) (committed w) = row' :: rest
      /\ shows_company c row')
  /\ snd (get_company (PUuid 1%N) w)
     = log_statement SelectCompany [PStr (py_str (PUuid 1%N))] w.
Proof.
  intros t0 row w c. apply (get_company_shows_row (PUuid 1%N) w c). reflexivity.
Defined.

Lemma update_company_dumped_Ok_row (company_id : pyval) (now : datetime)
    (dumped : dict) (w : world) (c : Company.t) :
  fst (update_company_dumped company_id now dumped w) = Ok c ->
  exists upd row rest,
    update_fields_of now dumped = Ok upd
    /\ configured w = true
    /\ filter (id_matches (PStr (py_str company_id))) (committed w) = row :: rest
    /\ Company.model_validate (row_to_camel_dict (Some (project select_columns row)))
       = Some c
    /\ snd (update_company_dumped company_id now dumped w)
       = set_committed (update_rows (PStr (py_str company_id)) upd (committed w))
           (log_statement SelectCompany [PStr (py_str company_id)]
              (log_statement (UpdateCompany (keys upd))
                 (values upd ++ [PStr (py_str company_id)])%list w)).
Proof.
  rewrite update_company_dumped_spec.
  destruct (update_fields_of now dumped) as [upd|e]; [|discriminate].
  destruct (configured w) eqn:Hconf; [|discriminate]. cbv zeta.
  destruct (forallb adaptable (values upd)); [|discriminate].
  destruct (fits_columns upd); [|discriminate].
  destruct (filter _ (committed w)) as [|row rest] eqn:Hf; [discriminate|].
  destruct (filter_head _ _ _ _ Hf) as [_ Hm].
  apply id_matches_text in Hm. cbn [py_str] in Hm.
  set (w1 := log_statement _ _ w).
  destruct (get_company (column "id" row) w1) as [[c'|e] w2] eqn:Hget; [|discriminate].
  cbn [fst snd]. intros [= <-].
  exists upd, row, rest. repeat split.
  - assert (Hok : fst (get_company (column "id" row) w1) = Ok c') by now rewrite Hget.
    apply get_company_Ok in Hok. destruct Hok as (_ & r & rs & Hf' & Hv).
    rewrite Hm in Hf'. change (committed w1) with (committed w) in Hf'.
    rewrite Hf in Hf'. now injection Hf' as <- <-.
  - assert (Hok : fst (get_company (column "id" row) w1) = Ok c') by now rewrite Hget.
    apply get_company_Ok_log in Hok. rewrite Hget in Hok. cbn [snd] in Hok.
    now rewrite Hok, Hm.
Qed.

(** X16: when [update_company] returns, its response is the record as
    it was before the update: the same record [get_company] gives for
    the identifier on the table as it was. *)
Theorem update_response_is_stale (company_id : pyval) (now : datetime)
    (dumped : dict) (w : world) (c : Company.t) :
  fst (update_company_dumped company_id now dumped w) = Ok c ->
  fst (get_company company_id w) = Ok c.
Proof.
  intros Hok.
  destruct (update_company_dumped_Ok_row _ _ _ _ _ Hok)
    as (upd & row & rest & _ & Hconf & Hf & Hv & _).
  apply get_company_Ok. split; [exact Hconf|]. now exists row, rest.
Qed.

Lemma update_response_is_stale_witness :
  let now := mk_datetime 2024 5 17 10 30 0 0 in
  let t0 := mk_datetime 2023 1 2 3 4 5 0 in
  let row := [("id", PUuid 1%N); ("name", PStr "Acme");
              ("created_at", PDatetime t0); ("updated_at", PDatetime t0)] in
  let w := mk_world (Some "postgresql://store") true [row] [] in
  fst (get_company (PUuid 1%N) w)
  = Ok (Company.mk "00000000-0000-0000-0000-000000000001" "Acme" None None None None None
                   "2023-01-02T03:04:05" "2023-01-02T03:04:05").
Proof.
  intros now t0 row w.
  apply (update_response_is_stale (PUuid 1%N) now [("name", PStr "Bolt")] w).
  reflexivity.
Defined.

(** X17: after an [update_company] that returned, a [get_company] for
    the same identifier that returns shows the update: [updatedAt] is
    the time of the update, [id] and [createdAt] are those of the
    response of the update, and a name the update assigned is the
    name. *)
Theorem get_after_update (company_id : pyval) (now : datetime) (dumped : dict)
    (w : world) (c c' : Company.t) :
  fst (update_company_dumped company_id now dumped w) = Ok c ->
  fst (get_company company_id (snd (update_company_dumped company_id now dumped w))) = Ok c' ->
  Company.id c' = Company.id c
  /\ Company.createdAt c' = Company.createdAt c
  /\ Company.updatedAt c' = datetime_isoformat now
  /\ (forall n, In ("name", PStr n) (camel_to_snake_items dumped) -> Company.name c' = n).
Proof.
  intros Hok Hget.
  destruct (update_company_dumped_Ok_row _ _ _ _ _ Hok)
    as (upd & row & rest & Hupd & Hconf & Hf & Hv & Hw).
  rewrite Hw in Hget. apply get_company_Ok in Hget.
  destruct Hget as (_ & row' & rest' & Hf' & Hv').
  cbn [committed set_committed] in Hf'.
  destruct (update_fields_of_frame _ _ _ Hupd) as [Hid Hcr].
  rewrite (filter_update_rows _ upd _ Hid), Hf in Hf'. cbn [map] in Hf'.
  injection Hf' as <- _.
  apply model_validate_shows_company in Hv, Hv'.
  destruct Hv as (Hi & _ & _ & _ & _ & _ & _ & Hc & _).
  destruct Hv' as (Hi' & Hn' & _ & _ & _ & _ & _ & Hc' & Hu').
  unfold shows_text, column in *.
  rewrite (assign_other upd "id" Hid) in Hi'.
  rewrite (assign_other upd "created_at" Hcr) in Hc'.
  assert (Hbound : forall k v, In (k, v) upd -> dict_get k (assign upd row) = Some v).
  { intros k v Hin. apply assign_bound; [exact Hin|].
    intros v0 Hin0. eapply NoDup_keys_unique;
      [eapply update_fields_of_NoDup; eauto | exact Hin0 | exact Hin]. }
  rewrite (Hbound "updated_at" (PDatetime now)) in Hu'
    by (apply dict_get_In; eapply update_fields_of_updated_at; eauto).
  repeat split.
  - congruence.
  - congruence.
  - cbn [externalize_value] in Hu'. congruence.
  - intros n Hin.
    rewrite (Hbound "name" (PStr n)) in Hn'; [cbn [externalize_value] in Hn'; congruence|].
    rewrite (update_fields_of_Ok _ _ _ Hupd).
    apply filter_allowed_In. cbn [fst snd]. repeat split.
    + apply dict_set_In_other; [discriminate | exact Hin].
    + apply mem_In. reflexivity.
    + discriminate.
Qed.

Lemma get_after_update_witness :
  let now := mk_datetime 2024 5 17 10 30 0 0 in
  let t0 := mk_datetime 2023 1 2 3 4 5 0 in
  let row := [("id", PUuid 1%N); ("name", PStr "Acme");
              ("created_at", PDatetime t0); ("updated_at", PDatetime t0)] in
  let w := mk_world (Some "postgresql://store") true [row] [] in
  let dumped := [("name", PStr "Bolt")] in
  let c := Company.mk "00000000-0000-0000-0000-000000000001" "Acme" None None None None None
                      "2023-01-02T03:04:05" "2023-01-02T03:04:05" in
  let c' := Company.mk "00000000-0000-0000-0000-000000000001" "Bolt" None None None None None
                       "2023-01-02T03:04:05" "2024-05-17T10:30:00" in
  Company.id c' = Company.id c
  /\ Company.createdAt c' = Company.createdAt c
  /\ Company.updatedAt c' = datetime_isoformat now
  /\ (forall n, In ("name", PStr n) (camel_to_snake_items dumped) -> Company.name c' = n).
Proof.
  intros now t0 row w dumped c c'.
  apply (get_after_update (PUuid 1%N) now dumped w c c'); reflexivity.
Defined.

(** ** From a validated request to the columns written *)

(** X18: for every validated create request, the field set of the
    INSERT is, in this order: [name], [industry] and [address] (the
    request's [location]) as given, then [logo_url], [revenue] and
    [employee_estimate] (the request's [employees]) for those given with
    a value, then the generated [id] and the current time under
    [created_at] and [updated_at]. *)
Theorem create_request_columns (new_id : uuid) (now : datetime)
    (request : CreateCompanyRequest.t) :
  create_insert_data new_id now (CreateCompanyRequest.model_dump request)
  = Ok ([("name", PStr (CreateCompanyRequest.name request));
         ("industry", PStr (CreateCompanyRequest.industry request));
         ("address", PStr (CreateCompanyRequest.location request))]
        ++ column_item "logo_url" PStr (CreateCompanyRequest.logoUrl request)
        ++ column_item "revenue" PInt (CreateCompanyRequest.revenue request)
        ++ column_item "employee_estimate" PInt (CreateCompanyRequest.employees request)
        ++ [("id", PUuid new_id);
            ("created_at", PDatetime now); ("updated_at", PDatetime now)])%list.
Proof.
  destruct request as [n i l [|[u|]] [|[r|]] [|[e|]]]; vm_compute; reflexivity.
Qed.

(** X19: for every validated update request that gets past the checks
    of the handler, the field set of the UPDATE is, in the order of the
    request model, one item for each field given with a value, under
    [name], [industry], [address] (for [location]), [logo_url],
    [revenue] and [employee_estimate] (for [employees]), and then the
    current time under [updated_at]. *)
Theorem update_request_columns (now : datetime) (request : UpdateCompanyRequest.t)
    (upd : dict) :
  update_fields_of now (UpdateCompanyRequest.model_dump request) = Ok upd ->
  upd = (column_item "name" PStr (UpdateCompanyRequest.name request)
         ++ column_item "industry" PStr (UpdateCompanyRequest.industry request)
         ++ column_item "address" PStr (UpdateCompanyRequest.location request)
         ++ column_item "logo_url" PStr (UpdateCompanyRequest.logoUrl request)
         ++ column_item "revenue" PInt (UpdateCompanyRequest.revenue request)
         ++ column_item "employee_estimate" PInt (UpdateCompanyRequest.employees request)
         ++ [("updated_at", PDatetime now)])%list.
Proof.
  destruct request as [[|[n|]] [|[i|]] [|[l|]] [|[u|]] [|[r|]] [|[e|]]];
    vm_compute; intros H; first [discriminate H | now injection H as <-].
Qed.

Lemma update_request_columns_witness :
  let now := mk_datetime 2024 5 17 10 30 0 0 in
  let request :=
    UpdateCompanyRequest.mk Unset (Given None) (Given (Some "2 Side St")) Unset Unset
                            (Given (Some 40%Z)) in
  [("address", PStr "2 Side St"); ("employee_estimate", PInt 40);
   ("updated_at", PDatetime now)]
  = (column_item "name" PStr (UpdateCompanyRequest.name request)
     ++ column_item "industry" PStr (UpdateCompanyRequest.industry request)
     ++ column_item "address" PStr (UpdateCompanyRequest.location request)
     ++ column_item "logo_url" PStr (UpdateCompanyRequest.logoUrl request)
     ++ column_item "revenue" PInt (UpdateCompanyRequest.revenue request)
     ++ column_item "employee_estimate" PInt (UpdateCompanyRequest.employees request)
     ++ [("updated_at", PDatetime now)])%list.
Proof.
  intros now request.
  apply (update_request_columns now request). reflexivity.
Defined.

Lemma Forall2_pairs {A : Type} (R : A -> A -> Prop) (l l' : list A) :
  Forall2 R l l' ->
  exists pairs : list (A * A),
    map fst pairs = l /\ map snd pairs = l'
    /\ Forall (fun pr => R (fst pr) (snd pr)) pairs.
Proof.
  induction 1 as [|a b l l' Hab _ (pairs & H1 & H2 & H3)].
  - exists []. repeat split. constructor.
  - exists ((a, b) :: pairs). cbn [map fst snd]. rewrite H1, H2.
    repeat split. constructor; [exact Hab | exact H3].
Qed.

(** X20: an update changes nothing but the columns of its field set in
    the rows of the identifier: the rows before and the rows after
    correspond one to one, a row with another identifier to itself, and
    a row of the identifier to a row in which every column outside the
    field set holds what it held. *)
Theorem update_touches_only_target (company_id : pyval) (now : datetime)
    (dumped : dict) (w : world) :
  let w' := snd (update_company_dumped company_id now dumped w) in
  exists pairs : list (dict * dict),
    Permutation (map fst pairs) (committed w)
    /\ Permutation (map snd pairs) (committed w')
    /\ Forall (fun pr =>
                 (id_matches (PStr (py_str company_id)) (fst pr) = false -> snd pr = fst pr)
                 /\ forall upd k, update_fields_of now dumped = Ok upd ->
                                  ~ In k (keys upd) ->
                                  column k (snd pr) = column k (fst pr))
              pairs.
Proof.
  cbv zeta.
  assert (H : Forall2 (fun old new =>
                (id_matches (PStr (py_str company_id)) old = false -> new = old)
                /\ forall upd k, update_fields_of now dumped = Ok upd ->
                                 ~ In k (keys upd) -> column k new = column k old)
              (committed w)
              (committed (snd (update_company_dumped company_id now dumped w)))).
  { destruct (update_company_dumped_committed company_id now dumped w)
      as [-> | (upd & c & Hupd & _ & ->)].
    - apply Forall2_same. auto.
    - apply Forall2_update_rows.
      + auto.
      + intros row Hm. split; [congruence|].
        intros upd' k Hupd' Hk. rewrite Hupd in Hupd'. injection Hupd' as <-.
        unfold column. now rewrite (assign_other upd k Hk). }
  destruct (Forall2_pairs _ _ _ H) as (pairs & H1 & H2 & H3).
  exists pairs. rewrite H1, H2. repeat split; [apply Permutation_refl .. | exact H3].
Qed.

Lemma update_touches_only_target_witness :
  let now := mk_datetime 2024 5 17 10 30 0 0 in
  let t0 := mk_datetime 2023 1 2 3 4 5 0 in
  let acme := [("id", PUuid 1%N); ("name", PStr "Acme"); ("industry", PStr "Tools");
               ("created_at", PDatetime t0); ("updated_at", PDatetime t0)] in
  let bolt := [("id", PUuid 2%N); ("name", PStr "Bolt");
               ("created_at", PDatetime t0); ("updated_at", PDatetime t0)] in
  let w := mk_world (Some "postgresql://store") true [acme; bolt] [] in
  let w' := snd (update_company_dumped (PUuid 1%N) now [("name", PStr "Apex")] w) in
  exists pairs : list (dict * dict),
    Permutation (map fst pairs) (committed w)
    /\ Permutation (map snd pairs) (committed w')
    /\ Forall (fun pr =>
                 (id_matches (PStr (py_str (PUuid 1%N))) (fst pr) = false -> snd pr = fst pr)
                 /\ forall upd k,
                      update_fields_of now [("name", PStr "Apex")] = Ok upd ->
                      ~ In k (keys upd) ->
                      column k (snd pr) = column k (fst pr))
              pairs.
Proof.
  intros now t0 acme bolt w w'.
  exact (update_touches_only_target (PUuid 1%N) now [("name", PStr "Apex")] w).
Defined.
